(** * pelican_bibtex: a shallow embedding of [pelican_bibtex.py]

    The plugin reads a BibTeX file, formats every entry with a pybtex style
    ([MyStyle], a subclass of pybtex's [unsrt] style), sorts the formatted
    entries into three lists and stores them in the generator's context.

    The file is organised as follows.
    - [Py]: the few Python built-ins the plugin relies on (exceptions,
      [int], [str.capitalize]).
    - [Richtext], [Template], [Unsrt]: the part of pybtex the plugin
      imports ([pybtex.richtext], [pybtex.backends.html],
      [pybtex.style.template], and from [pybtex.style.formatting.unsrt] the
      [pages] and [date] templates and the methods [MyStyle] inherits).
    - [MyStyle]: the class of the same name, method by method.
    - [SortKey]: the sort keys, their comparison under Python 2 and 3, and
      [sorted].
    - [Plugin]: [add_publications], with the interpreter version, the
      parser, the BibTeX writer and the entry formatters of the base style
      as parameters.
    - [Html]: the HTML of the venue sentences written out, for comparison.
    - [Samples]: sample bibliographies.
    - the theorems. *)

From Stdlib Require Import ZArith String Ascii List Bool Lia.
From stdpp Require Import gmap strings list.

Set Warnings "-register-all".
Open Scope string_scope.

(** stdpp blocks the unfolding of string concatenation; the proofs below
    compute with it. *)
#[global] Arguments String.append !s1 s2 : simpl nomatch.

(* ===================================================================== *)
(** ** Python built-ins                                                   *)
(* ===================================================================== *)

Module Py.

(** The exceptions that can travel through the plugin.  [FieldIsMissing]
    is pybtex's (a subclass of [PybtexError]); [PybtexError] stands for any
    other pybtex error and carries [str(e)]. *)
Inductive exn : Type :=
| TypeError
| ValueError (literal : string)
| KeyError (key : string)
| AttributeError (attr : string)
| IOError (msg : string)
| PybtexError (msg : string)
| FieldIsMissing (field_name : string).

(** [isinstance(e, PybtexError)] *)
Definition is_PybtexError (e : exn) : bool :=
  match e with
  | PybtexError _ | FieldIsMissing _ => true
  | _ => false
  end.

(** [str(e)] for the pybtex errors (the only ones the plugin prints). *)
Definition str_exn (e : exn) : string :=
  match e with
  | PybtexError msg => msg
  | FieldIsMissing f => "missing " ++ f
  | ValueError s => "invalid literal for int() with base 10: " ++ s
  | KeyError k => k
  | AttributeError a => a
  | IOError m => m
  | TypeError => "TypeError"
  end.

(** A computation that returns a value or raises. *)
Inductive result (A : Type) : Type :=
| Ok (a : A)
| Raise (e : exn).
Arguments Ok {A} a.
Arguments Raise {A} e.

Definition bind {A B} (m : result A) (k : A -> result B) : result B :=
  match m with
  | Ok a => k a
  | Raise e => Raise e
  end.

Definition is_ok {A} (m : result A) : bool :=
  match m with Ok _ => true | Raise _ => false end.

(** The interpreter version: the module imports [StringIO] with a
    fallback to [io], so it is written for both. *)
Inductive version : Type := Py2 | Py3.

(** *** [int(s)] on a string: optional surrounding white space, an
    optional sign, decimal digits; Python 3 also accepts single
    underscores between digits.  Strings are read as ASCII. *)

Definition is_space (c : ascii) : bool :=
  match c with
  | " "%char | "009"%char | "010"%char | "011"%char | "012"%char | "013"%char => true
  | _ => false
  end.

Definition digit_of (c : ascii) : option Z :=
  let n := Z.of_nat (nat_of_ascii c) in
  if ((48 <=? n) && (n <=? 57))%Z then Some (n - 48)%Z else None.

Fixpoint lstrip (s : string) : string :=
  match s with
  | String c s' => if is_space c then lstrip s' else s
  | EmptyString => EmptyString
  end.

Fixpoint all_space (s : string) : bool :=
  match s with
  | String c s' => is_space c && all_space s'
  | EmptyString => true
  end.

(** [digits v acc prev s]: [prev] tells whether the previous character
    was a digit (an underscore is only legal right after one and must be
    followed by one). *)
Fixpoint digits (v : version) (acc : Z) (prev : bool) (s : string) : option Z :=
  match s with
  | EmptyString => if prev then Some acc else None
  | String c s' =>
      match digit_of c with
      | Some d => digits v (10 * acc + d)%Z true s'
      | None =>
          if Ascii.eqb c "_"%char then
            match v, prev, s' with
            | Py3, true, String c' _ =>
                match digit_of c' with
                | Some _ => digits v acc false s'
                | None => None
                end
            | _, _, _ => None
            end
          else if prev && all_space s then Some acc else None
      end
  end.

Definition parse_int (v : version) (s : string) : option Z :=
  match lstrip s with
  | String "-"%char s' => option_map Z.opp (digits v 0 false s')
  | String "+"%char s' => digits v 0 false s'
  | s' => digits v 0 false s'
  end.

(** [int(x)] where [x] is a string or [None]. *)
Definition int (v : version) (x : option string) : result Z :=
  match x with
  | None => Raise TypeError
  | Some s =>
      match parse_int v s with
      | Some z => Ok z
      | None => Raise (ValueError s)
      end
  end.

(** *** [str.capitalize]: first character upper-cased, the rest
    lower-cased.  Text is kept as 8-bit characters and the case mapping is
    that of the ASCII letters: on ASCII text this is all of
    [str.capitalize]; the case mapping of other characters is not
    modelled, they are left as they are. *)

Definition upper (c : ascii) : ascii :=
  let n := nat_of_ascii c in
  if ((97 <=? n) && (n <=? 122))%nat then ascii_of_nat (n - 32) else c.

Definition lower (c : ascii) : ascii :=
  let n := nat_of_ascii c in
  if ((65 <=? n) && (n <=? 90))%nat then ascii_of_nat (n + 32) else c.

Fixpoint map_string (f : ascii -> ascii) (s : string) : string :=
  match s with
  | EmptyString => EmptyString
  | String c s' => String (f c) (map_string f s')
  end.

Definition capitalize (s : string) : string :=
  match s with
  | EmptyString => EmptyString
  | String c s' => String (upper c) (map_string lower s')
  end.



(** [needle] occurs in [hay], as a proposition. *)
Definition occurs_in (needle hay : string) : Prop :=
  exists pre post, hay = pre ++ needle ++ post.

Fixpoint last_char (s : string) : option ascii :=
  match s with
  | EmptyString => None
  | String c EmptyString => Some c
  | String _ s' => last_char s'
  end.

End Py.
Export Py.

#[global] Instance result_ret : MRet Py.result := @Py.Ok.
#[global] Instance result_bind : MBind Py.result := fun A B k m => Py.bind m k.

(* ===================================================================== *)
(** ** pybtex rich text and the HTML backend                              *)
(* ===================================================================== *)

Module Richtext.

(** [pybtex.richtext.Symbol]: the three symbols the styles use. *)
Inductive symbol : Type := ndash | newblock | nbsp.

(** [pybtex.richtext]: a string, a [Symbol], or a [Text], [Tag] or
    [HRef] made of parts. *)
Inductive rtext : Type :=
| Str (s : string)
| Symbol (sym : symbol)
| Text (parts : list rtext)
| Tag (name : string) (parts : list rtext)
| HRef (url : rtext) (parts : list rtext).

Definition symbol_name (y : symbol) : string :=
  match y with ndash => "ndash" | newblock => "newblock" | nbsp => "nbsp" end.

(** The parts of a text, measured or printed one after the other. *)
Section Parts.
Context {T : Type}.

Fixpoint sum_map (f : T -> nat) (l : list T) : nat :=
  match l with
  | [] => 0
  | p :: l' => f p + sum_map f l'
  end.

Fixpoint concat_map (f : T -> string) (l : list T) : string :=
  match l with
  | [] => ""
  | p :: l' => f p ++ concat_map f l'
  end.
End Parts.

(** [len(text)]: the number of characters; a symbol counts for one. *)
Fixpoint len (t : rtext) : nat :=
  match t with
  | Str s => String.length s
  | Symbol _ => 1
  | Text ps | Tag _ ps | HRef _ ps => sum_map len ps
  end.

(** Truth value of a piece of text ([if part] in the templates). *)
Definition truthy (t : rtext) : bool := negb (Nat.eqb (len t) 0).

(** [str(text)], the plain text. *)
Fixpoint plaintext (t : rtext) : string :=
  match t with
  | Str s => s
  | Symbol y => "<" ++ symbol_name y ++ ">"
  | Text ps | Tag _ ps | HRef _ ps => concat_map plaintext ps
  end.

(** [Text.add_period]: a period is appended to a non-empty text that
    does not already end with a period, a question mark or an
    exclamation mark. *)
Definition is_terminated (s : string) : bool :=
  match last_char s with
  | Some "."%char | Some "?"%char | Some "!"%char => true
  | _ => false
  end.

Definition add_period (t : rtext) : rtext :=
  if truthy t && negb (is_terminated (plaintext t)) then Text [t; Str "."] else t.

(** [sep.join(parts)] *)
Fixpoint intersperse (sep : rtext) (parts : list rtext) : list rtext :=
  match parts with
  | [] => []
  | [p] => [p]
  | p :: ps => p :: sep :: intersperse sep ps
  end.

Definition join (sep : rtext) (parts : list rtext) : rtext :=
  Text (intersperse sep parts).

(** *** [pybtex.backends.html.Backend] *)

(** [xml.sax.saxutils.escape] *)
Fixpoint escape (s : string) : string :=
  match s with
  | EmptyString => EmptyString
  | String c s' =>
      (if Ascii.eqb c "&"%char then "&amp;"
       else if Ascii.eqb c "<"%char then "&lt;"
       else if Ascii.eqb c ">"%char then "&gt;"
       else String c EmptyString) ++ escape s'
  end.

Definition html_symbol (y : symbol) : string :=
  match y with
  | ndash => "&ndash;"
  | newblock => String "010"%char EmptyString
  | nbsp => "&nbsp;"
  end.

(** [format_tag] and [format_href] wrap a text that is not empty. *)
Definition format_tag (name text : string) : string :=
  if String.eqb text "" then "" else "<" ++ name ++ ">" ++ text ++ "</" ++ name ++ ">".

Definition dquote : string := String "034"%char EmptyString.

Definition format_href (url text : string) : string :=
  if String.eqb text "" then ""
  else "<a href=" ++ dquote ++ url ++ dquote ++ ">" ++ text ++ "</a>".

(** [text.render(html_backend)] *)
Fixpoint render (t : rtext) : string :=
  match t with
  | Str s => escape s
  | Symbol y => html_symbol y
  | Text ps => concat_map render ps
  | Tag name ps => format_tag name (concat_map render ps)
  | HRef url ps => format_href (plaintext url) (concat_map render ps)
  end.

End Richtext.
Export Richtext.

(* ===================================================================== *)
(** ** Bibliography entries                                               *)
(* ===================================================================== *)

(** [pybtex.database.Entry]: the entry type ("article", "misc", ...), the
    fields, and the persons by role.  A person is kept as the text the
    style's name formatter produces for it. *)
Record Entry : Type := {
  type : string;
  fields : gmap string string;
  persons : gmap string (list string)
}.

(** [entry.fields[name] = value] and [del entry.fields[name]] *)
Definition set_field (name value : string) (e : Entry) : Entry :=
  {| type := type e; fields := <[name := value]> (fields e); persons := persons e |}.

Definition del_field (name : string) (e : Entry) : Entry :=
  {| type := type e; fields := delete name (fields e); persons := persons e |}.

(* ===================================================================== *)
(** ** pybtex templates                                                   *)
(* ===================================================================== *)

Module Template.

(** [pybtex.style.template], the library the plugin builds its templates
    with (it is imported, not part of the plugin).  A template is a tree of
    nodes; a child that is not a node (a string) is returned as it is.
    In pybtex:
    - [field(name, apply_func)] is [entry.fields[name]], passed through
      [apply_func], and raises [FieldIsMissing] on a [KeyError];
    - [names(role, ...)] joins the texts of [entry.persons[role]] and raises
      [FieldIsMissing] when the entry has no such role;
    - [join(sep, sep2, last_sep)[children]] formats all children and joins
      the non-empty ones;
    - [sentence[children]] is [join(', ')] followed by [add_period()];
    - [optional[children]] is the [Text] of the formatted children, or the
      empty [Text()] when formatting a child raised [FieldIsMissing];
    - [first_of[children]] returns the first child that is not empty, or
      [Text()];
    - [tag(name)[children]] and [href[url, children]] wrap the children;
    - [words[children]] is [join(' ')], [toplevel[children]] is
      [join(Symbol('newblock'))], [optional_field(name)] is
      [optional[field(name)]].
    Field values are taken as plain text: LaTeX markup inside a value is not
    interpreted. *)
Inductive template : Type :=
| lit (t : rtext)
| field (name : string) (apply_func : option (string -> rtext))
| names (role : string) (sep sep2 last_sep : rtext)
| join (sep sep2 last_sep : rtext) (children : list template)
| sentence (children : list template)
| optional (children : list template)
| first_of (children : list template)
| tag (name : string) (children : list template)
| href (children : list template).

Definition words (children : list template) : template :=
  join (Str " ") (Str " ") (Str " ") children.

Definition toplevel (children : list template) : template :=
  join (Symbol newblock) (Symbol newblock) (Symbol newblock) children.

Definition optional_field (name : string) : template :=
  optional [field name None].

(** The body of [join]: empty parts are dropped, two parts are joined by
    [sep2], more by [sep] with [last_sep] before the last one. *)
Definition join_parts (sep sep2 last_sep : rtext) (formatted : list rtext) : rtext :=
  let parts := List.filter truthy formatted in
  match parts with
  | [] | [_] => Text parts
  | [_; _] => Richtext.join sep2 parts
  | _ => Richtext.join last_sep
           [Richtext.join sep (removelast parts); List.last parts (Text [])]
  end.

(** [_format_list(children, data)] consumed to the end, and the loop of
    [first_of]: the children are formatted from left to right and the
    first exception stops the formatting; [first_of] stops at the first
    non-empty child and never formats the ones behind it. *)
Section Children.
Context {T : Type} (format : T -> result rtext).

Fixpoint format_all (l : list T) : result (list rtext) :=
  match l with
  | [] => Ok []
  | c :: l' =>
      match format c with
      | Ok x => match format_all l' with
                | Ok xs => Ok (x :: xs)
                | Raise ex => Raise ex
                end
      | Raise ex => Raise ex
      end
  end.

Fixpoint first_nonempty (l : list T) : result rtext :=
  match l with
  | [] => Ok (Text [])
  | c :: l' =>
      match format c with
      | Ok x => if truthy x then Ok x else first_nonempty l'
      | Raise ex => Raise ex
      end
  end.
End Children.

(** [template.format_data(entry)] *)
Fixpoint format_data (t : template) (e : Entry) : result rtext :=
  let format_list := format_all (fun c => format_data c e) in
  match t with
  | lit x => Ok x
  | field name apply_func =>
      match fields e !! name with
      | None => Raise (FieldIsMissing name)
      | Some v => Ok (match apply_func with Some f => f v | None => Str v end)
      end
  | names role sep sep2 last_sep =>
      match persons e !! role with
      | None => Raise (FieldIsMissing role)
      | Some ps => Ok (join_parts sep sep2 last_sep (List.map Str ps))
      end
  | join sep sep2 last_sep cs =>
      match format_list cs with
      | Ok parts => Ok (join_parts sep sep2 last_sep parts)
      | Raise ex => Raise ex
      end
  | sentence cs =>
      match format_list cs with
      | Ok parts => Ok (add_period (join_parts (Str ", ") (Str ", ") (Str ", ") parts))
      | Raise ex => Raise ex
      end
  | optional cs =>
      match format_list cs with
      | Ok parts => Ok (Text parts)
      | Raise (FieldIsMissing _) => Ok (Text [])
      | Raise ex => Raise ex
      end
  | first_of cs => first_nonempty (fun c => format_data c e) cs
  | tag name cs =>
      match format_list cs with
      | Ok parts => Ok (Tag name parts)
      | Raise ex => Raise ex
      end
  | href cs =>
      match format_list cs with
      | Ok (url :: parts) => Ok (HRef url parts)
      | Ok [] => Raise TypeError
      | Raise ex => Raise ex
      end
  end.

(** [_format_list(children, entry)] *)
Definition format_list (l : list template) (e : Entry) : result (list rtext) :=
  format_all (fun c => format_data c e) l.

(** *** [pybtex.style.formatting.unsrt]: [dashify], [pages], [date] *)

(** In pybtex:
    [def dashify(text): return Text(Symbol('ndash')).join(text.split(dash_re))]
    with [dash_re = re.compile(r'-+')], [pages = field('pages',
    apply_func=dashify)] and [date = words[optional_field('month'),
    field('year')]]. *)

(** [re.split('-+', s)]: [cur] is the piece being read, [in_dash] tells
    whether the previous character was a hyphen. *)
Fixpoint split_dashes (cur : string) (in_dash : bool) (s : string) : list string :=
  match s with
  | EmptyString => [cur]
  | String c s' =>
      if Ascii.eqb c "-"%char then
        if in_dash then split_dashes cur true s'
        else cur :: split_dashes EmptyString true s'
      else split_dashes (cur ++ String c EmptyString) false s'
  end.

Definition dashify (text : string) : rtext :=
  Richtext.join (Text [Symbol ndash]) (List.map Str (split_dashes EmptyString false text)).

Definition pages : template := field "pages" (Some dashify).

Definition date : template := words [optional_field "month"; field "year" None].

End Template.
Export Template.

(* ===================================================================== *)
(** ** The style                                                          *)
(* ===================================================================== *)

(** The methods [MyStyle] inherits from pybtex's [unsrt.Style] and calls
    without overriding them. *)
Module Unsrt.

Definition format_names (role : string) : template :=
  sentence [names role (Str ", ") (Str " and ") (Str ", and ")].

Definition format_eprint : template :=
  href [join (Str "") (Str "") (Str "") [lit (Str "http://arxiv.org/abs/"); field "eprint" None];
        join (Str "") (Str "") (Str "") [lit (Str "arXiv:"); field "eprint" None]].

Definition format_pubmed : template :=
  href [join (Str "") (Str "") (Str "")
          [lit (Str "https://www.ncbi.nlm.nih.gov/pubmed/"); field "pubmed" None];
        join (Str "") (Str "") (Str "") [lit (Str "PMID:"); field "pubmed" None]].

(** [format_web_refs] calls [self.format_url] and [self.format_doi],
    which the subclass overrides: they are arguments here.  Both return
    the list of children of an [optional] node. *)
Definition format_web_refs (format_url format_doi : list template) : template :=
  sentence [optional format_url;
            optional [format_eprint];
            optional [format_pubmed];
            optional format_doi].

(** [format_misc], one of the inherited entry formatters; [format_title]
    is the subclass's. *)
Definition format_misc (format_title web_refs : template) : template :=
  toplevel [optional [format_names "author"];
            optional [format_title];
            sentence [optional [field "howpublished" None]; optional [date]];
            sentence [optional_field "note"];
            web_refs].

End Unsrt.

Module MyStyle.

Definition join0 (children : list template) : template :=
  join (Str "") (Str "") (Str "") children.

(** [format_doi]: "Kills doi printout". *)
Definition format_doi : list template := [].

(** [format_title(entry, which_field)] with [as_sentence=True] *)
Definition format_title (which_field : string) : template :=
  sentence [field which_field (Some (fun text => Tag "b" [Str (capitalize text)]))].

Definition format_url : list template :=
  [lit (Str "[");
   href [field "url" None; join (Str " ") (Str " ") (Str " ") [lit (Str "URL")]];
   lit (Str "]")].

Definition format_names := Unsrt.format_names.

Definition format_web_refs : template := Unsrt.format_web_refs format_url format_doi.

Definition volume_and_pages : template :=
  first_of [
    (* volume and pages, with optional issue number *)
    optional [
      join0 [field "volume" None;
             optional [lit (Str "("); field "number" None; lit (Str ")")];
             lit (Str ":"); pages]
    ];
    (* pages only *)
    optional [
      words [lit (Str "pages"); pages]
    ]
  ].

(** The third child of the article template. *)
Definition article_sentence : template :=
  sentence [tag "em" [field "journal" None];
            optional [volume_and_pages];
            date].

Definition format_article : template :=
  toplevel [
    format_title "title";
    format_names "author";
    article_sentence;
    sentence [optional_field "note"];
    format_web_refs
  ].

(** The third child of the unpublished template. *)
Definition unpublished_sentence : template :=
  sentence [
    words [
      first_of [optional_field "type"; lit (Str "Unpublished")];
      optional_field "number"
    ];
    date
  ].

Definition format_unpublished : template :=
  toplevel [
    format_title "title";
    sentence [format_names "author"];
    unpublished_sentence;
    sentence [optional_field "note"];
    format_web_refs
  ].

Definition format_techreport : template :=
  toplevel [
    format_title "title";
    sentence [format_names "author"];
    sentence [
      words [
        first_of [optional_field "type"; lit (Str "Technical Report")];
        optional_field "number"
      ];
      field "institution" None;
      optional_field "address";
      date
    ];
    sentence [optional_field "note"];
    format_web_refs
  ].

(** What [getattr(self, "format_" + entry.type)(entry)] returns: rich
    text, or a plain Python list when the method found is [format_doi] or
    [format_url] (a list has no [render] method). *)
Inductive formatted : Type :=
| Rich (t : rtext)
| PyList.

(** [format_entry inherited e]: the text [format_entries] yields for [e].
    [inherited ty] is the template of the [format_<ty>] method of the
    base style, if it has one. *)
Definition as_text (r : result rtext) : result formatted :=
  match r with
  | Ok t => Ok (Rich t)
  | Raise ex => Raise ex
  end.

Definition format_entry (inherited : string -> option template) (e : Entry)
  : result formatted :=
  let ty := type e in
  if String.eqb ty "article" then as_text (format_data format_article e)
  else if String.eqb ty "unpublished" then as_text (format_data format_unpublished e)
  else if String.eqb ty "techreport" then as_text (format_data format_techreport e)
  else if String.eqb ty "doi" || String.eqb ty "url" then Ok PyList
  else if String.eqb ty "title" then Raise TypeError
  else match inherited ty with
       | Some t => as_text (format_data t e)
       | None => Raise (AttributeError ("format_" ++ ty))
       end.

(** [formatted_entry.text.render(html_backend)] *)
Definition render_text (f : formatted) : result string :=
  match f with
  | Rich t => Ok (render t)
  | PyList => Raise (AttributeError "render")
  end.

End MyStyle.

(* ===================================================================== *)
(** ** Sort keys and [sorted]                                             *)
(* ===================================================================== *)

Module SortKey.

(** The sort key [(year, journal)]; [year] is an [int] or [None]. *)
Definition sort_key : Type := option Z * string.

(** [a == b] on years. *)
Definition year_eqb (a b : option Z) : bool :=
  match a, b with
  | Some x, Some y => Z.eqb x y
  | None, None => true
  | _, _ => false
  end.

(** [a < b] on years.  Python 2 orders [None] below every number;
    Python 3 raises [TypeError] when [None] meets an [int]. *)
Definition year_lt (v : version) (a b : option Z) : result bool :=
  match a, b with
  | Some x, Some y => Ok (Z.ltb x y)
  | None, None => Ok false
  | None, Some _ => match v with Py2 => Ok true | Py3 => Raise TypeError end
  | Some _, None => match v with Py2 => Ok false | Py3 => Raise TypeError end
  end.

Definition str_lt (a b : string) : bool :=
  match String.compare a b with Lt => true | _ => false end.

(** Tuple comparison: the first components that differ decide. *)
Definition key_lt (v : version) (a b : sort_key) : result bool :=
  if year_eqb a.1 b.1 then Ok (str_lt a.2 b.2) else year_lt v a.1 b.1.

(** [sorted(l, key=key, reverse=True)]: a stable sort into descending
    order that compares keys with [<] only.  Elements are inserted from
    the left; a new element goes behind every element that is not smaller
    than it, so equal keys keep their order. *)
Section Sorted.
Context {A : Type} (v : version) (key : A -> sort_key).

Fixpoint insert_desc (x : A) (l : list A) : result (list A) :=
  match l with
  | [] => Ok [x]
  | y :: l' =>
      match key_lt v (key y) (key x) with
      | Ok true => Ok (x :: y :: l')
      | Ok false =>
          match insert_desc x l' with
          | Ok l'' => Ok (y :: l'')
          | Raise ex => Raise ex
          end
      | Raise ex => Raise ex
      end
  end.

Fixpoint sort_into (acc l : list A) : result (list A) :=
  match l with
  | [] => Ok acc
  | x :: l' =>
      match insert_desc x acc with
      | Ok acc' => sort_into acc' l'
      | Raise ex => Raise ex
      end
  end.

Definition sorted_reverse (l : list A) : result (list A) := sort_into [] l.
End Sorted.

(** The descending order on keys the buckets are meant to be in: [a]
    comes before [b] when [a >= b], an absent year being older than any
    year, ties on the year broken by the journal. *)
Definition year_cmp (a b : option Z) : comparison :=
  match a, b with
  | Some x, Some y => Z.compare x y
  | None, None => Eq
  | None, Some _ => Lt
  | Some _, None => Gt
  end.

Definition key_cmp (a b : sort_key) : comparison :=
  match year_cmp a.1 b.1 with
  | Eq => String.compare a.2 b.2
  | c => c
  end.

Definition key_ge (a b : sort_key) : Prop := key_cmp a b <> Lt.

(** All adjacent pairs are in descending order. *)
Fixpoint descending {A : Type} (key : A -> sort_key) (l : list A) : Prop :=
  match l with
  | a :: (b :: _) as l' => key_ge (key a) (key b) /\ descending key l'
  | _ => True
  end.

End SortKey.
Export SortKey.

(* ===================================================================== *)
(** ** [add_publications]                                                 *)
(* ===================================================================== *)

(** The tuple [(key, text, bibtex, sort_key)] built for an entry. *)
Definition entry_res : Type := string * string * string * sort_key.

Definition res_key (r : entry_res) : string := r.1.1.1.
Definition res_text (r : entry_res) : string := r.1.1.2.
Definition res_bibtex (r : entry_res) : string := r.1.2.

(** [itemgetter(-1)] *)
Definition itemgetter_last (r : entry_res) : sort_key := r.2.

(** A value of [generator.context]: one of the lists this plugin stores, or
    anything else the host keeps there. *)
Inductive value : Type :=
| Bucket (l : list entry_res)
| Other (repr : string).

(** The generator, as far as the plugin touches it. *)
Record Generator : Type := {
  settings : gmap string string;
  context : gmap string value
}.

(** What a call does besides changing the context. *)
Inductive event : Type :=
| ParseFile (path : string)
| LogWarn (msg : string).

(** The state a call of [add_publications] ends in: the context, the
    events in order, and the exception that left the function, if any. *)
Record outcome : Type := {
  final_context : gmap string value;
  events : list event;
  raised : option exn
}.

(** The three local lists of the loop. *)
Record buckets : Type := {
  publications : list entry_res;
  reports : list entry_res;
  unpublished : list entry_res
}.

(** The three lists, one after the other. *)
Definition all_buckets (b : buckets) : list entry_res :=
  publications b ++ reports b ++ unpublished b.

(** [bibdata_all.entries[key]] *)
Fixpoint lookup_entry (key : string) (entries : list (string * Entry)) : result Entry :=
  match entries with
  | [] => Raise (KeyError key)
  | (k, e) :: rest => if String.eqb k key then Ok e else lookup_entry key rest
  end.

Module Plugin.
Section AddPublications.

(** The interpreter, [Parser().parse_file] (the entries in file order, or
    the exception raised), [Writer().write_stream] into a fresh buffer
    (entry key and entry to BibTeX text), and the entry formatters of the
    base style. *)
Variable v : version.
Variable parse_file : string -> result (list (string * Entry)).
Variable write_stream : string -> Entry -> string.
Variable inherited : string -> option template.

(** [try: year = int(entry.fields.get('year', None))
     except TypeError: year = None] *)
Definition year_of (entry : Entry) : result (option Z) :=
  match int v (fields entry !! "year") with
  | Ok y => Ok (Some y)
  | Raise TypeError => Ok None
  | Raise ex => Raise ex
  end.

(** The tuple of one entry: lines 179-198. *)
Definition make_entry_res (key : string) (entry : Entry) (text : MyStyle.formatted)
  : result entry_res :=
  year ← year_of entry;
  let journal := default "" (fields entry !! "journal") in
  let sort_key := (year, journal) in
  let bibtex := write_stream key entry in
  text ← MyStyle.render_text text;
  Ok (key, text, bibtex, sort_key).

(** [if entry.type == 'article': ... elif ... else ...] *)
Definition classify (entry : Entry) (r : entry_res) (b : buckets) : buckets :=
  if String.eqb (type entry) "article" then
    {| publications := publications b ++ [r];
       reports := reports b; unpublished := unpublished b |}
  else if String.eqb (type entry) "unpublished" then
    {| publications := publications b;
       reports := reports b; unpublished := unpublished b ++ [r] |}
  else
    {| publications := publications b;
       reports := reports b ++ [r]; unpublished := unpublished b |}.

(** The bucket [classify] appends to. *)
Definition bucket_for (entry : Entry) (b : buckets) : list entry_res :=
  if String.eqb (type entry) "article" then publications b
  else if String.eqb (type entry) "unpublished" then unpublished b
  else reports b.

(** One turn of the [for] loop, lines 178-198: the generator
    [format_entries] formats the next entry, the body looks the entry up
    again by its key and builds the tuple. *)
Definition item_res (all : list (string * Entry)) (item : string * Entry)
  : result (Entry * entry_res) :=
  formatted ← MyStyle.format_entry inherited item.2;
  let key := item.1 in
  entry ← lookup_entry key all;
  r ← make_entry_res key entry formatted;
  Ok (entry, r).

Definition loop_body (all : list (string * Entry)) (b : buckets)
    (item : string * Entry) : result buckets :=
  er ← item_res all item;
  Ok (classify er.1 er.2 b).

(** The [for] loop over the formatted entries; the first exception ends
    it. *)
Fixpoint loop (all : list (string * Entry)) (b : buckets)
    (items : list (string * Entry)) : result buckets :=
  match items with
  | [] => Ok b
  | item :: rest =>
      match loop_body all b item with
      | Ok b' => loop all b' rest
      | Raise ex => Raise ex
      end
  end.

(** The message given to [logger.warn]. *)
Definition warning (refs_file : string) (e : exn) : string :=
  "`pelican_bibtex` failed to parse file " ++ refs_file ++ ": " ++ str_exn e.

(** [add_publications(generator)], lines 157-215: the early return, the
    guarded parse, the loop, and the three assignments, each evaluating
    [sorted] before it stores the list. *)
Definition add_publications (generator : Generator) : outcome :=
  let ctx := context generator in
  match settings generator !! "PUBLICATIONS_SRC" with
  | None => {| final_context := ctx; events := []; raised := None |}
  | Some refs_file =>
      match parse_file refs_file with
      | Raise e =>
          if is_PybtexError e then
            {| final_context := ctx;
               events := [ParseFile refs_file; LogWarn (warning refs_file e)];
               raised := None |}
          else
            {| final_context := ctx; events := [ParseFile refs_file]; raised := Some e |}
      | Ok entries =>
          let ev := [ParseFile refs_file] in
          match loop entries {| publications := []; reports := []; unpublished := [] |}
                  entries with
          | Raise e => {| final_context := ctx; events := ev; raised := Some e |}
          | Ok b =>
              match sorted_reverse v itemgetter_last (publications b) with
              | Raise e => {| final_context := ctx; events := ev; raised := Some e |}
              | Ok p =>
                  let ctx1 := <["publications" := Bucket p]> ctx in
                  match sorted_reverse v itemgetter_last (reports b) with
                  | Raise e => {| final_context := ctx1; events := ev; raised := Some e |}
                  | Ok r =>
                      let ctx2 := <["reports" := Bucket r]> ctx1 in
                      match sorted_reverse v itemgetter_last (unpublished b) with
                      | Raise e =>
                          {| final_context := ctx2; events := ev; raised := Some e |}
                      | Ok u =>
                          {| final_context := <["unpublished" := Bucket u]> ctx2;
                             events := ev; raised := None |}
                      end
                  end
              end
          end
      end
  end.

End AddPublications.
End Plugin.
Export Plugin.

(* ===================================================================== *)
(** ** What a template reads and needs                                    *)
(* ===================================================================== *)

(** [reads name t]: [t] contains a [field] node for [name]. *)
Fixpoint reads (name : string) (t : template) : bool :=
  match t with
  | lit _ | names _ _ _ _ => false
  | field n _ => String.eqb n name
  | join _ _ _ cs | sentence cs | optional cs | first_of cs | tag _ cs | href cs =>
      existsb (reads name) cs
  end.

(** A field or a role of persons an entry may or may not have. *)
Inductive requirement : Type :=
| a_field (name : string)
| a_role (role : string).

Definition present (e : Entry) (q : requirement) : Prop :=
  match q with
  | a_field name => is_Some (fields e !! name)
  | a_role role => is_Some (persons e !! role)
  end.

(** The fields and roles a template reads outside of every [optional]. *)
Fixpoint needs (t : template) : list requirement :=
  match t with
  | lit _ | optional _ => []
  | field n _ => [a_field n]
  | names r _ _ _ => [a_role r]
  | join _ _ _ cs | sentence cs | first_of cs | tag _ cs | href cs => flat_map needs cs
  end.

(** Those among them that are read on every path: of a [first_of] only
    the first child is sure to be formatted. *)
Fixpoint always_needs (t : template) : list requirement :=
  match t with
  | lit _ | optional _ => []
  | field n _ => [a_field n]
  | names r _ _ _ => [a_role r]
  | first_of cs => match cs with c :: _ => always_needs c | [] => [] end
  | join _ _ _ cs | sentence cs | tag _ cs | href cs => flat_map always_needs cs
  end.

(** Every [href] node has a child for the URL. *)
Fixpoint well_formed (t : template) : bool :=
  match t with
  | lit _ | field _ _ | names _ _ _ _ => true
  | href cs => negb (Nat.eqb (length cs) 0) && forallb well_formed cs
  | join _ _ _ cs | sentence cs | optional cs | first_of cs | tag _ cs =>
      forallb well_formed cs
  end.

(** The required fields of the three entry types [MyStyle] formats
    itself. *)
Definition required (ty : string) : list requirement :=
  if String.eqb ty "article" then
    [a_field "title"; a_role "author"; a_field "journal"; a_field "year"]
  else if String.eqb ty "unpublished" then
    [a_field "title"; a_role "author"; a_field "year"]
  else if String.eqb ty "techreport" then
    [a_field "title"; a_role "author"; a_field "institution"; a_field "year"]
  else [].

(* ===================================================================== *)
(** ** The HTML of the venue sentences, written out                       *)
(* ===================================================================== *)

Module Html.

Definition nonempty (s : string) : bool := negb (String.eqb s "").

Fixpoint concat_sep (sep : string) (parts : list string) : string :=
  match parts with
  | [] => ""
  | [p] => p
  | p :: ps => p ++ sep ++ concat_sep sep ps
  end.

(** The non-empty parts, with [sep] between them. *)
Definition join_nonempty (sep : string) (parts : list string) : string :=
  concat_sep sep (List.filter nonempty parts).




(** The pages, every run of hyphens replaced by an en dash. *)
Definition pages_html (pg : string) : string :=
  concat_sep "&ndash;" (List.map escape (split_dashes "" false pg)).

(** "volume(number):pages" when volume and pages are present, the number
    in parentheses only when present; else "pages" and the pages when the
    pages are present; else nothing. *)
Definition volume_and_pages_html (e : Entry) : string :=
  match fields e !! "volume", fields e !! "pages" with
  | Some vol, Some pg =>
      escape vol
      ++ match fields e !! "number" with
         | Some n => "(" ++ escape n ++ ")"
         | None => ""
         end
      ++ ":" ++ pages_html pg
  | None, Some pg => join_nonempty " " ["pages"; pages_html pg]
  | _, None => ""
  end.




End Html.

(* ===================================================================== *)
(** ** Sample bibliographies                                              *)
(* ===================================================================== *)

Module Samples.

Definition entry (ty : string) (fs : list (string * string)) (authors : list string)
  : Entry :=
  {| type := ty; fields := list_to_map fs; persons := {["author" := authors]} |}.

(** The scenario of the specification. *)
Definition survey : Entry :=
  entry "article"
    [("title", "a survey"); ("year", "2020"); ("journal", "ACM Computing Surveys");
     ("volume", "52"); ("number", "4"); ("pages", "1-35")]
    ["Ada Lovelace"].

Definition survey_2019 : Entry :=
  entry "article"
    [("title", "a survey"); ("year", "2019"); ("journal", "ACM Computing Surveys");
     ("volume", "52"); ("number", "4"); ("pages", "1-35")]
    ["Ada Lovelace"].


Definition in_press : Entry :=
  entry "article"
    [("title", "a survey"); ("year", "in press"); ("journal", "ACM Computing Surveys")]
    ["Ada Lovelace"].

Definition report : Entry :=
  entry "techreport"
    [("title", "a report"); ("year", "2018"); ("institution", "MIT")]
    ["Alan Turing"].

Definition report_no_institution : Entry :=
  entry "techreport" [("title", "a report"); ("year", "2018")] ["Alan Turing"].

Definition draft : Entry :=
  entry "unpublished" [("title", "a draft"); ("year", "2021")] ["Ada Lovelace"].

Definition draft_typed : Entry :=
  entry "unpublished"
    [("title", "a draft"); ("year", "2021"); ("type", "Working paper")]
    ["Ada Lovelace"].



Definition talk : Entry :=
  entry "misc" [("title", "a talk"); ("year", "2020")] ["Alan Turing"].

Definition talk_undated : Entry :=
  entry "misc" [("title", "another talk")] ["Alan Turing"].

(** A base style that only knows [format_misc]. *)
Definition misc_only (ty : string) : option template :=
  if String.eqb ty "misc" then
    Some (Unsrt.format_misc (MyStyle.format_title "title") MyStyle.format_web_refs)
  else None.

(** A stand-in for the BibTeX writer. *)
Definition writer (key : string) (e : Entry) : string :=
  "@" ++ type e ++ "{" ++ key ++ "}".

(** A file system of parsed files: a path opens a bibliography, raises a
    parse error, or does not exist. *)
Definition parser (files : list (string * result (list (string * Entry))))
    (path : string) : result (list (string * Entry)) :=
  match List.find (fun f => String.eqb f.1 path) files with
  | Some f => f.2
  | None => Raise (IOError path)
  end.

Definition files : list (string * result (list (string * Entry))) :=
  [("refs.bib", Ok [("s19", survey_2019); ("r", report); ("d", draft); ("s20", survey);
                    ("t", talk)]);
   ("empty.bib", Ok []);
   ("broken.bib", Raise (PybtexError "syntax error in line 3: '=' expected"));
   ("inpress.bib", Ok [("p", in_press)]);
   ("mixed.bib", Ok [("t", talk); ("u", talk_undated)]);
   ("report.bib", Ok [("r", report_no_institution)])].

Definition site (src : string) : Generator :=
  {| settings := {["PUBLICATIONS_SRC" := src]};
     context := {["SITENAME" := Other "blog"]} |}.

Definition unconfigured : Generator :=
  {| settings := {["SITENAME" := "blog"]};
     context := {["SITENAME" := Other "blog"]} |}.

Definition run (v : version) (g : Generator) : outcome :=
  add_publications v (parser files) writer misc_only g.

End Samples.

(* ===================================================================== *)
(** ** The venue sentences for any year, written out                      *)
(* ===================================================================== *)

Module Venue.
Import Html.













(** An article with a volume and no pages. *)
Definition volume_only : Entry :=
  Samples.entry "article"
    [("title", "a survey"); ("year", "2020"); ("journal", "Nature"); ("volume", "52")]
    ["Ada Lovelace"].


End Venue.

(* ===================================================================== *)
(** ** The other blocks of an entry, written out                          *)
(* ===================================================================== *)

Module Blocks.

(** The third child of the technical-report template of [MyStyle]. *)
Definition techreport_sentence : template :=
  sentence [
    words [
      first_of [optional_field "type"; lit (Str "Technical Report")];
      optional_field "number"
    ];
    field "institution" None;
    optional_field "address";
    date
  ].

(** A template formatted and rendered in one go. *)
Definition rendered (t : template) (e : Entry) : result string :=
  match format_data t e with
  | Ok x => Ok (render x)
  | Raise ex => Raise ex
  end.

(** The period that closes a sentence whose plain text is [plain]: none
    when the sentence is empty or already ends with ".", "?" or "!". *)
Definition period_for (plain : string) : string :=
  if Html.nonempty plain && negb (is_terminated plain) then "." else "".



(** The third child of the template of each of the three entry types. *)
Definition venue_sentence (ty : string) : template :=
  if String.eqb ty "article" then MyStyle.article_sentence
  else if String.eqb ty "unpublished" then MyStyle.unpublished_sentence
  else techreport_sentence.

(** The bracketed link to the URL. *)
Definition url_html (url : string) : string :=
  "[<a href=" ++ dquote ++ url ++ dquote ++ ">URL</a>]".





(** Whether the sort key of an element has a year. *)
Definition dated {A : Type} (key : A -> sort_key) (a : A) : bool :=
  match (key a).1 with Some _ => true | None => false end.

(** The name of the list an entry type goes to. *)
Definition category_bucket (ty : string) : string :=
  if String.eqb ty "article" then "publications"
  else if String.eqb ty "unpublished" then "unpublished"
  else "reports".

(** One of the three local lists, by the name it is stored under. *)
Definition get_bucket (name : string) (b : buckets) : list entry_res :=
  if String.eqb name "publications" then publications b
  else if String.eqb name "unpublished" then unpublished b
  else reports b.

(** The sort key [(year, journal)] the loop computes for an entry. *)
Definition sort_key_of (v : version) (e : Entry) : result sort_key :=
  match year_of v e with
  | Ok year => Ok (year, default "" (fields e !! "journal"))
  | Raise ex => Raise ex
  end.

(** The entries of a file that go to the list [name] with sort key [k]. *)
Definition goes_to (v : version) (name : string) (k : sort_key) (item : string * Entry)
  : bool :=
  String.eqb (category_bucket (type item.2)) name
  && match sort_key_of v item.2 with
     | Ok k' => bool_decide (k' = k)
     | Raise _ => false
     end.

(** More files: one that cannot be opened as a bibliography for a reason
    that is not a pybtex error, and one with ties in the sort key. *)
Definition files : list (string * result (list (string * Entry))) :=
  [("locked.bib", Raise (IOError "Permission denied"));
   ("ties.bib", Ok [("d1", Samples.draft); ("r", Samples.report); ("d2", Samples.draft_typed);
                    ("t", Samples.talk)]);
   ("bad.bib", Ok [("s", Samples.survey); ("r", Samples.report_no_institution)])].

Definition run (v : version) (g : Generator) : outcome :=
  add_publications v (Samples.parser files) Samples.writer Samples.misc_only g.

Definition linked : Entry :=
  Samples.entry "techreport"
    [("title", "what is a report?"); ("year", "2018"); ("institution", "MIT");
     ("address", "Cambridge"); ("number", "7"); ("note", "To appear");
     ("url", "http://example.org/r.pdf")]
    ["Alan Turing"; "Ada Lovelace"].


End Blocks.

(* ===================================================================== *)
(** ** Facts about the Python built-ins                                   *)
(* ===================================================================== *)



Lemma string_app_assoc (a b c : string) : (a ++ b) ++ c = a ++ (b ++ c).
Proof. induction a as [|x a IH]; simpl; [reflexivity | rewrite IH; reflexivity]. Qed.

Lemma occurs_in_middle pre x post : occurs_in x (pre ++ x ++ post).
Proof. exists pre, post. reflexivity. Qed.

(** [int] fails with [TypeError] on [None] only. *)
Lemma int_TypeError v x : int v x = Raise TypeError <-> x = None.
Proof.
  unfold int. destruct x as [s|]; [|tauto].
  destruct (parse_int v s); split; intros H; discriminate.
Qed.

(* ===================================================================== *)
(** ** Facts about sort keys and [sorted]                                 *)
(* ===================================================================== *)

Lemma year_cmp_antisym a b : year_cmp a b = CompOpp (year_cmp b a).
Proof. destruct a, b; simpl; auto using Z.compare_antisym. Qed.

Lemma key_cmp_antisym a b : key_cmp a b = CompOpp (key_cmp b a).
Proof.
  unfold key_cmp. rewrite (year_cmp_antisym a.1 b.1).
  destruct (year_cmp b.1 a.1); simpl; auto using String.compare_antisym.
Qed.

Lemma year_eqb_cmp a b : year_eqb a b = true <-> year_cmp a b = Eq.
Proof.
  destruct a as [x|], b as [y|]; simpl; try (split; [discriminate | discriminate]).
  - rewrite Z.eqb_eq, Z.compare_eq_iff. tauto.
  - tauto.
Qed.

(** Whenever Python's [<] on keys returns, it agrees with [key_cmp]. *)
Lemma key_lt_cmp v a b t :
  key_lt v a b = Ok t -> t = match key_cmp a b with Lt => true | _ => false end.
Proof.
  unfold key_lt, key_cmp. destruct (year_eqb a.1 b.1) eqn:E.
  - apply year_eqb_cmp in E. rewrite E. unfold str_lt. congruence.
  - assert (year_cmp a.1 b.1 <> Eq) as N.
    { intros H. apply year_eqb_cmp in H. congruence. }
    destruct a.1 as [x|], b.1 as [y|]; simpl in *.
    + intros [= <-]. unfold Z.ltb. destruct (x ?= y)%Z; congruence.
    + destruct v; [intros [= <-]; reflexivity | discriminate].
    + destruct v; [intros [= <-]; reflexivity | discriminate].
    + congruence.
Qed.

Lemma key_lt_true_ge v a b : key_lt v a b = Ok true -> key_ge b a.
Proof.
  intros H. apply key_lt_cmp in H. unfold key_ge. rewrite key_cmp_antisym.
  destruct (key_cmp a b); simpl; congruence.
Qed.

Lemma key_lt_false_ge v a b : key_lt v a b = Ok false -> key_ge a b.
Proof.
  intros H. apply key_lt_cmp in H. unfold key_ge. destruct (key_cmp a b); congruence.
Qed.

(** Python 2 can compare any two keys. *)
Lemma key_lt_py2_total a b : exists t, key_lt Py2 a b = Ok t.
Proof.
  unfold key_lt. destruct (year_eqb a.1 b.1); [eauto|].
  destruct a.1, b.1; simpl; eauto.
Qed.

(** So can Python 3 when both years are present. *)
Lemma key_lt_present_total v a b :
  is_Some a.1 -> is_Some b.1 -> exists t, key_lt v a b = Ok t.
Proof.
  intros [x Hx] [y Hy]. unfold key_lt. rewrite Hx, Hy.
  destruct (year_eqb (Some x) (Some y)); simpl; eauto.
Qed.

Section SortedFacts.
Context {A : Type} (v : version) (key : A -> sort_key).

Lemma descending_cons a l :
  descending key (a :: l) <->
  (forall b, head l = Some b -> key_ge (key a) (key b)) /\ descending key l.
Proof.
  destruct l as [|b l]; simpl.
  - split; [intros _; split; [discriminate | exact I] | tauto].
  - split.
    + intros [H1 H2]. split; [intros b' [= <-]; exact H1 | exact H2].
    + intros [H1 H2]. split; [apply H1; reflexivity | exact H2].
Qed.

Lemma insert_desc_head x l l' :
  insert_desc v key x l = Ok l' ->
  forall b, head l' = Some b -> b = x \/ head l = Some b.
Proof.
  destruct l as [|y l]; simpl.
  - intros [= <-] b [= <-]. left. reflexivity.
  - destruct (key_lt v (key y) (key x)) as [[|]|]; try discriminate.
    + intros [= <-] b [= <-]. left. reflexivity.
    + destruct (insert_desc v key x l); try discriminate.
      intros [= <-] b [= <-]. right. reflexivity.
Qed.

Lemma insert_desc_descending x l l' :
  descending key l -> insert_desc v key x l = Ok l' -> descending key l'.
Proof.
  revert l'. induction l as [|y l IH]; intros l' D; simpl.
  - intros [= <-]. exact I.
  - destruct (key_lt v (key y) (key x)) as [[|]|] eqn:E; try discriminate.
    + intros [= <-]. split; [eapply key_lt_true_ge; eauto | exact D].
    + destruct (insert_desc v key x l) as [l''|] eqn:E'; try discriminate.
      intros [= <-]. apply descending_cons in D as [Dh Dt].
      apply descending_cons. split; [|eauto].
      intros b Hb. destruct (insert_desc_head _ _ _ E' _ Hb) as [-> | Hb'].
      * eapply key_lt_false_ge; eauto.
      * auto.
Qed.

Lemma insert_desc_perm x l l' : insert_desc v key x l = Ok l' -> l' ≡ₚ x :: l.
Proof.
  revert l'. induction l as [|y l IH]; intros l'; simpl.
  - intros [= <-]. reflexivity.
  - destruct (key_lt v (key y) (key x)) as [[|]|]; try discriminate.
    + intros [= <-]. reflexivity.
    + destruct (insert_desc v key x l) as [l''|]; try discriminate.
      intros [= <-]. rewrite (IH l'' eq_refl). apply perm_swap.
Qed.

Lemma sort_into_descending acc l r :
  descending key acc -> sort_into v key acc l = Ok r -> descending key r.
Proof.
  revert acc. induction l as [|x l IH]; intros acc D; simpl.
  - intros [= <-]. exact D.
  - destruct (insert_desc v key x acc) as [acc'|] eqn:E; try discriminate.
    apply IH. eapply insert_desc_descending; eauto.
Qed.

Lemma sort_into_perm acc l r : sort_into v key acc l = Ok r -> r ≡ₚ acc ++ l.
Proof.
  revert acc. induction l as [|x l IH]; intros acc; simpl.
  - intros [= <-]. rewrite app_nil_r. reflexivity.
  - destruct (insert_desc v key x acc) as [acc'|] eqn:E; try discriminate.
    intros H. rewrite (IH _ H), (insert_desc_perm _ _ _ E).
    simpl. apply Permutation_middle.
Qed.

(** The result of [sorted(..., reverse=True)] is in descending order of
    the key and is a rearrangement of the list. *)
Lemma sorted_reverse_descending l r :
  sorted_reverse v key l = Ok r -> descending key r.
Proof. apply sort_into_descending. exact I. Qed.

Lemma sorted_reverse_perm l r : sorted_reverse v key l = Ok r -> r ≡ₚ l.
Proof. intros H. apply sort_into_perm in H. exact H. Qed.

Lemma sorted_reverse_nil : sorted_reverse v key [] = Ok [].
Proof. reflexivity. Qed.

(** [sorted] returns when all keys can be compared with each other. *)
Lemma insert_desc_total (P : A -> Prop) x l :
  (forall a b, P a -> P b -> exists t, key_lt v (key a) (key b) = Ok t) ->
  P x -> Forall P l -> exists l', insert_desc v key x l = Ok l' /\ Forall P l'.
Proof.
  intros Hcmp Hx. induction 1 as [|y l Hy Hl IH]; simpl.
  - eauto.
  - destruct (Hcmp y x Hy Hx) as [[|] ->]; [eauto 6|].
    destruct IH as [l' [-> Hl']]. eauto.
Qed.

Lemma sort_into_total (P : A -> Prop) acc l :
  (forall a b, P a -> P b -> exists t, key_lt v (key a) (key b) = Ok t) ->
  Forall P acc -> Forall P l -> exists r, sort_into v key acc l = Ok r.
Proof.
  intros Hcmp Hacc Hl. revert acc Hacc.
  induction Hl as [|x l Hx Hl IH]; intros acc Hacc; simpl; [eauto|].
  destruct (insert_desc_total P x acc Hcmp Hx Hacc) as [acc' [-> Hacc']]. eauto.
Qed.

End SortedFacts.

(** Under Python 2 [sorted] always returns. *)
Lemma sorted_reverse_py2_total {A : Type} (key : A -> sort_key) l :
  exists r, sorted_reverse Py2 key l = Ok r.
Proof.
  apply (sort_into_total Py2 key (fun _ => True)); auto using Forall_nil.
  - intros a b _ _. apply key_lt_py2_total.
  - apply Forall_forall. auto.
Qed.

(** Under either version it returns when every year is present. *)
Lemma sorted_reverse_present_total {A : Type} v (key : A -> sort_key) l :
  Forall (fun a => is_Some (key a).1) l -> exists r, sorted_reverse v key l = Ok r.
Proof.
  intros H. apply (sort_into_total v key (fun a => is_Some (key a).1)); auto.
  intros a b. apply key_lt_present_total.
Qed.

(* ===================================================================== *)
(** ** [add_publications]: control flow                                   *)
(* ===================================================================== *)

Section PipelineFacts.

Context (v : version)
        (parse_file : string -> result (list (string * Entry)))
        (write_stream : string -> Entry -> string)
        (inherited : string -> option template).

Local Abbreviation add_publications := (add_publications v parse_file write_stream inherited).
Local Abbreviation item_res := (item_res v write_stream inherited).
Local Abbreviation loop := (loop v write_stream inherited).
Local Abbreviation make_entry_res := (make_entry_res v write_stream).

(** A year that is present and does not parse makes [int] raise
    [ValueError], which the [except TypeError] clause lets through. *)
Lemma year_of_unparseable entry s :
  fields entry !! "year" = Some s -> parse_int v s = None ->
  year_of v entry = Raise (ValueError s).
Proof. intros Hy Hp. unfold year_of, int. rewrite Hy, Hp. reflexivity. Qed.

Lemma year_of_absent entry : fields entry !! "year" = None -> year_of v entry = Ok None.
Proof. intros Hy. unfold year_of, int. rewrite Hy. reflexivity. Qed.

Lemma year_of_parsed entry s y :
  fields entry !! "year" = Some s -> parse_int v s = Some y ->
  year_of v entry = Ok (Some y).
Proof. intros Hy Hp. unfold year_of, int. rewrite Hy, Hp. reflexivity. Qed.

Lemma lookup_entry_NoDup k e (all : list (string * Entry)) :
  NoDup (map fst all) -> (k, e) ∈ all -> lookup_entry k all = Ok e.
Proof.
  induction all as [|[k' e'] all IH]; simpl; intros ND Hin.
  - inversion Hin.
  - apply NoDup_cons in ND as [Hk ND]. apply elem_of_cons in Hin as [[= -> ->] | Hin].
    + rewrite String.eqb_refl. reflexivity.
    + destruct (String.eqb_spec k' k) as [-> | _]; [|auto].
      exfalso. apply Hk. apply list_elem_of_fmap. exists (k, e). auto.
Qed.

Lemma make_entry_res_key k e f r : make_entry_res k e f = Ok r -> res_key r = k.
Proof.
  unfold Plugin.make_entry_res. destruct (year_of v e); simpl; [|discriminate].
  destruct (MyStyle.render_text f); simpl; [|discriminate].
  intros [= <-]. reflexivity.
Qed.

(** What a turn of the loop computes for an item of a bibliography
    without repeated keys. *)
Lemma item_res_spec all k e er :
  NoDup (map fst all) -> (k, e) ∈ all -> item_res all (k, e) = Ok er ->
  er.1 = e /\ res_key er.2 = k /\
  exists f, MyStyle.format_entry inherited e = Ok f /\ make_entry_res k e f = Ok er.2.
Proof.
  intros ND Hin. unfold Plugin.item_res; simpl.
  destruct (MyStyle.format_entry inherited e) as [f|]; simpl; [|discriminate].
  rewrite (lookup_entry_NoDup _ _ _ ND Hin); simpl.
  destruct (make_entry_res k e f) as [r|] eqn:E; simpl; [|discriminate].
  intros [= <-]. simpl. split; [reflexivity|]. split; [eapply make_entry_res_key; eauto|].
  exists f. split; [reflexivity | exact E].
Qed.

Lemma perm_insert_last {A} (l1 l2 : list A) x : l1 ++ x :: l2 ≡ₚ (l1 ++ l2) ++ [x].
Proof. rewrite <- Permutation_middle. apply Permutation_cons_append. Qed.

Lemma classify_all e r b : all_buckets (classify e r b) ≡ₚ all_buckets b ++ [r].
Proof.
  unfold classify, all_buckets.
  destruct (String.eqb (type e) "article"); [|destruct (String.eqb (type e) "unpublished")];
    simpl.
  - rewrite <- app_assoc. simpl. apply perm_insert_last.
  - rewrite !app_assoc. reflexivity.
  - rewrite <- (app_assoc (reports b) [r]). simpl.
    rewrite (app_assoc (publications b)), perm_insert_last.
    rewrite <- (app_assoc (publications b)). reflexivity.
Qed.

Lemma classify_bucket_for e r b : r ∈ bucket_for e (classify e r b).
Proof.
  unfold classify, bucket_for.
  destruct (String.eqb (type e) "article"); [|destruct (String.eqb (type e) "unpublished")];
    simpl; apply elem_of_app; right; apply list_elem_of_singleton; reflexivity.
Qed.

Lemma classify_grows e' e r b x : x ∈ bucket_for e' b -> x ∈ bucket_for e' (classify e r b).
Proof.
  unfold classify, bucket_for.
  destruct (String.eqb (type e) "article"); [|destruct (String.eqb (type e) "unpublished")];
    destruct (String.eqb (type e') "article"); try destruct (String.eqb (type e') "unpublished");
    simpl; auto; intros H; apply elem_of_app; auto.
Qed.

(** The loop: every item yields one tuple, and the three lists together
    grow by exactly these tuples, each in the list its entry type selects. *)
Lemma loop_spec all items : forall b b',
  loop all b items = Ok b' ->
  exists ers,
    Forall2 (fun item er => item_res all item = Ok er) items ers /\
    all_buckets b' ≡ₚ all_buckets b ++ map snd ers /\
    (forall er, er ∈ ers -> er.2 ∈ bucket_for er.1 b') /\
    (forall e x, x ∈ bucket_for e b -> x ∈ bucket_for e b').
Proof.
  induction items as [|item items IH]; intros b b'; simpl.
  - intros [= <-]. exists []. repeat split; auto.
    + simpl. rewrite app_nil_r. reflexivity.
    + intros er H. inversion H.
  - unfold loop_body.
    destruct (item_res all item) as [er|] eqn:E; simpl; [|discriminate].
    intros H. destruct (IH _ _ H) as [ers [HF [HP [Hin Hmono]]]].
    exists (er :: ers). repeat split.
    + constructor; assumption.
    + rewrite HP, classify_all. simpl. rewrite <- app_assoc. reflexivity.
    + intros er' Her. apply elem_of_cons in Her as [-> | Her]; [|auto].
      apply Hmono, classify_bucket_for.
    + intros e x Hx. apply Hmono, classify_grows, Hx.
Qed.

(** How a call that got past the parser and returned came about. *)
Lemma add_publications_returned g refs_file entries :
  settings g !! "PUBLICATIONS_SRC" = Some refs_file ->
  parse_file refs_file = Ok entries ->
  raised (add_publications g) = None ->
  exists b p r u,
    loop entries {| publications := []; reports := []; unpublished := [] |} entries = Ok b /\
    sorted_reverse v itemgetter_last (publications b) = Ok p /\
    sorted_reverse v itemgetter_last (reports b) = Ok r /\
    sorted_reverse v itemgetter_last (unpublished b) = Ok u /\
    add_publications g =
      {| final_context :=
           <["unpublished" := Bucket u]>
             (<["reports" := Bucket r]> (<["publications" := Bucket p]> (context g)));
         events := [ParseFile refs_file];
         raised := None |}.
Proof.
  intros Hs Hp. unfold Plugin.add_publications. rewrite Hs, Hp.
  destruct (loop entries _ entries) as [b|] eqn:Eb; [|discriminate].
  destruct (sorted_reverse v itemgetter_last (publications b)) as [p|] eqn:Ep;
    [|discriminate].
  destruct (sorted_reverse v itemgetter_last (reports b)) as [r|] eqn:Er; [|discriminate].
  destruct (sorted_reverse v itemgetter_last (unpublished b)) as [u|] eqn:Eu;
    [|discriminate].
  intros _. exists b, p, r, u. repeat split; assumption || reflexivity.
Qed.

Lemma three_keys (ctx : gmap string value) p r u :
  let ctx' := <["unpublished" := Bucket u]>
                (<["reports" := Bucket r]> (<["publications" := Bucket p]> ctx)) in
  ctx' !! "publications" = Some (Bucket p) /\
  ctx' !! "reports" = Some (Bucket r) /\
  ctx' !! "unpublished" = Some (Bucket u).
Proof. simpl. repeat split; by simplify_map_eq. Qed.

(** Keys that [sorted] can compare: any under Python 2, those with a year
    under Python 3. *)
Lemma comparable_keys (a b : entry_res) :
  (v = Py2 \/ is_Some (itemgetter_last a).1) ->
  (v = Py2 \/ is_Some (itemgetter_last b).1) ->
  exists t, key_lt v (itemgetter_last a) (itemgetter_last b) = Ok t.
Proof.
  intros [-> | Ha] [Hb | Hb]; try (apply key_lt_py2_total); subst;
    try (apply key_lt_py2_total). apply key_lt_present_total; assumption.
Qed.

Lemma item_res_total all k e x y :
  NoDup (map fst all) -> (k, e) ∈ all ->
  MyStyle.format_entry inherited e = Ok (MyStyle.Rich x) -> year_of v e = Ok y ->
  item_res all (k, e)
    = Ok (e, (k, render x, write_stream k e, (y, default "" (fields e !! "journal")))).
Proof.
  intros ND Hin Hf Hy. unfold Plugin.item_res. simpl. rewrite Hf. simpl.
  rewrite (lookup_entry_NoDup _ _ _ ND Hin). simpl.
  unfold Plugin.make_entry_res. rewrite Hy. reflexivity.
Qed.

(** The loop runs to its end when every record formats to rich text and
    its year is absent or an integer; the keys it builds can be compared
    when, under Python 3, no year is absent. *)
Lemma loop_total all items :
  NoDup (map fst all) ->
  (forall k e, (k, e) ∈ items ->
     (k, e) ∈ all /\
     (exists x, MyStyle.format_entry inherited e = Ok (MyStyle.Rich x)) /\
     (exists y, year_of v e = Ok y /\ (v = Py2 \/ is_Some y))) ->
  forall b,
    Forall (fun r => v = Py2 \/ is_Some (itemgetter_last r).1) (all_buckets b) ->
    exists b',
      loop all b items = Ok b' /\
      Forall (fun r => v = Py2 \/ is_Some (itemgetter_last r).1) (all_buckets b').
Proof.
  intros ND. induction items as [|[k e] items IH]; intros Hitems b Hb; simpl; [eauto|].
  destruct (Hitems k e) as [Hin [[x Hx] [y [Hy Hc]]]]; [apply elem_of_cons; auto|].
  unfold Plugin.loop_body. rewrite (item_res_total all k e x y ND Hin Hx Hy). simpl.
  apply IH.
  - intros k' e' H. apply Hitems, elem_of_cons. auto.
  - rewrite classify_all. apply Forall_app. split; [exact Hb|].
    constructor; [exact Hc | constructor].
Qed.

(** A sufficient condition for the call to return. *)
Lemma add_publications_returns g refs_file entries :
  settings g !! "PUBLICATIONS_SRC" = Some refs_file ->
  parse_file refs_file = Ok entries ->
  NoDup (map fst entries) ->
  (forall k e, (k, e) ∈ entries ->
     (exists x, MyStyle.format_entry inherited e = Ok (MyStyle.Rich x)) /\
     (exists y, year_of v e = Ok y /\ (v = Py2 \/ is_Some y))) ->
  raised (add_publications g) = None.
Proof.
  intros Hs Hp ND Hall. unfold Plugin.add_publications. rewrite Hs, Hp.
  destruct (loop_total entries entries ND) with
    (b := {| publications := []; reports := []; unpublished := [] |})
    as [b [-> Hb]].
  - intros k e H. split; [exact H | apply (Hall k e H)].
  - constructor.
  - unfold all_buckets in Hb. apply Forall_app in Hb as [Hp' Hb].
    apply Forall_app in Hb as [Hr' Hu'].
    destruct (sort_into_total v itemgetter_last _ [] (publications b) comparable_keys)
      as [p Ep]; [constructor | exact Hp' |].
    destruct (sort_into_total v itemgetter_last _ [] (reports b) comparable_keys)
      as [r Er]; [constructor | exact Hr' |].
    destruct (sort_into_total v itemgetter_last _ [] (unpublished b) comparable_keys)
      as [u Eu]; [constructor | exact Hu' |].
    unfold sorted_reverse. rewrite Ep, Er, Eu. reflexivity.
Qed.

Lemma count_key_NoDup {T} (f : T -> string) (k : string) (ts : list T) :
  NoDup (map f ts) -> k ∈ map f ts -> length (filter (fun t => f t = k) ts) = 1.
Proof.
  induction ts as [|t ts IH]; simpl; intros ND Hin.
  - inversion Hin.
  - apply NoDup_cons in ND as [Hk ND]. rewrite filter_cons.
    destruct (decide (f t = k)) as [<- | Hne]; simpl.
    + f_equal. destruct (filter (fun t0 => f t0 = f t) ts) as [|t' l] eqn:E; [reflexivity|].
      exfalso. apply Hk. assert (t' ∈ filter (fun t0 => f t0 = f t) ts) as Ht'.
      { rewrite E. apply elem_of_cons. auto. }
      apply list_elem_of_filter in Ht' as [<- Ht'].
      apply list_elem_of_fmap. eauto.
    + apply IH; [exact ND|]. apply elem_of_cons in Hin as [-> | Hin]; [congruence | exact Hin].
Qed.

Lemma item_res_keys all items ers :
  NoDup (map fst all) -> (forall item, item ∈ items -> item ∈ all) ->
  Forall2 (fun item er => item_res all item = Ok er) items ers ->
  map (fun er => res_key er.2) ers = map fst items.
Proof.
  intros ND Hsub HF. induction HF as [|[k e] er items ers H HF IH]; simpl; [reflexivity|].
  f_equal.
  - apply (item_res_spec all k e er ND) in H as [_ [Hk _]]; [exact Hk|].
    apply Hsub, elem_of_cons. auto.
  - apply IH. intros item Hitem. apply Hsub, elem_of_cons. auto.
Qed.

(** C4 (as amended).  Take a bibliography that parses, with distinct keys
    as in any dictionary.  Whenever the call returns, every record has its
    tuple in the list its entry type selects -- "article" in publications,
    "unpublished" in unpublished, anything else in reports -- and the three
    lists together hold exactly one tuple with that key.  The call does
    return when every record formats to rich text and has an absent or
    integer year, and the interpreter is Python 2 or no year is absent. *)
Theorem every_record_in_exactly_one_bucket g refs_file entries :
  settings g !! "PUBLICATIONS_SRC" = Some refs_file ->
  parse_file refs_file = Ok entries ->
  NoDup (map fst entries) ->
  (raised (add_publications g) = None ->
   exists p r u,
     final_context (add_publications g) !! "publications" = Some (Bucket p) /\
     final_context (add_publications g) !! "reports" = Some (Bucket r) /\
     final_context (add_publications g) !! "unpublished" = Some (Bucket u) /\
     forall k e, (k, e) ∈ entries ->
       exists f t,
         MyStyle.format_entry inherited e = Ok f /\
         make_entry_res k e f = Ok t /\
         t ∈ (if String.eqb (type e) "article" then p
              else if String.eqb (type e) "unpublished" then u
              else r) /\
         length (filter (fun x => res_key x = k) (p ++ r ++ u)%list) = 1) /\
  ((forall k e, (k, e) ∈ entries ->
      (exists x, MyStyle.format_entry inherited e = Ok (MyStyle.Rich x)) /\
      (exists y, year_of v e = Ok y /\ (v = Py2 \/ is_Some y))) ->
   raised (add_publications g) = None).
Proof.
  intros Hs Hp ND. split; [|apply (add_publications_returns g refs_file entries Hs Hp ND)].
  intros Hret.
  destruct (add_publications_returned g refs_file entries Hs Hp Hret)
    as [b [p [r [u [Hloop [Ep [Er [Eu ->]]]]]]]].
  exists p, r, u. simpl.
  destruct (three_keys (context g) p r u) as [K1 [K2 K3]].
  split; [exact K1|]. split; [exact K2|]. split; [exact K3|].
  apply sorted_reverse_perm in Ep, Er, Eu.
  destruct (loop_spec entries entries _ _ Hloop) as [ers [HF [HP [Hin _]]]].
  intros k e Hke.
  apply list_elem_of_lookup in Hke as [i Hi].
  destruct (Forall2_lookup_l _ _ _ _ _ HF Hi) as [er [Hi' Her]].
  assert ((k, e) ∈ entries) as Hke by (apply list_elem_of_lookup; eauto).
  destruct (item_res_spec entries k e er ND Hke Her) as [He [Hk [f [Hf Ht]]]].
  exists f, er.2. split; [exact Hf|]. split; [exact Ht|]. split.
  - assert (er ∈ ers) as Hmem by (apply list_elem_of_lookup; eauto).
    specialize (Hin er Hmem). rewrite He in Hin. unfold bucket_for in Hin.
    destruct (String.eqb (type e) "article"); [rewrite Ep; exact Hin|].
    destruct (String.eqb (type e) "unpublished"); [rewrite Eu | rewrite Er]; exact Hin.
  - rewrite Ep, Er, Eu. fold (all_buckets b). rewrite HP. simpl.
    rewrite <- (length_map (fun x => x)).
    assert (map (fun er0 : Entry * entry_res => res_key er0.2) ers = map fst entries) as Hkeys.
    { apply (item_res_keys entries); auto. }
    rewrite map_id.
    assert (length (filter (fun t => res_key t = k) (map snd ers)) =
            length (filter (fun er0 : Entry * entry_res => res_key er0.2 = k) ers)) as ->.
    { clear. induction ers as [|a l IH]; simpl; [reflexivity|].
      rewrite !filter_cons. simpl. destruct (decide (res_key a.2 = k)); simpl; congruence. }
    apply (count_key_NoDup (fun er0 : Entry * entry_res => res_key er0.2)).
    + rewrite Hkeys. exact ND.
    + rewrite Hkeys. apply list_elem_of_fmap. exists (k, e). auto.
Qed.

(** When a call gets past the parser and returns, each of the three lists
    is in descending order of the sort key, an absent year counting as
    older than any year. *)
Lemma buckets_descending g refs_file entries :
  settings g !! "PUBLICATIONS_SRC" = Some refs_file ->
  parse_file refs_file = Ok entries ->
  raised (add_publications g) = None ->
  exists p r u,
    final_context (add_publications g) !! "publications" = Some (Bucket p) /\
    final_context (add_publications g) !! "reports" = Some (Bucket r) /\
    final_context (add_publications g) !! "unpublished" = Some (Bucket u) /\
    descending itemgetter_last p /\
    descending itemgetter_last r /\
    descending itemgetter_last u.
Proof.
  intros Hs Hp Hret.
  destruct (add_publications_returned g refs_file entries Hs Hp Hret)
    as [b [p [r [u [Hloop [Ep [Er [Eu ->]]]]]]]].
  exists p, r, u. simpl.
  destruct (three_keys (context g) p r u) as [K1 [K2 K3]].
  split; [exact K1|]. split; [exact K2|]. split; [exact K3|].
  repeat split; eapply sorted_reverse_descending; eassumption.
Qed.

(** C9.  Without a "PUBLICATIONS_SRC" setting the call returns at once:
    the context is the one it was given, nothing is parsed or logged, and
    nothing is raised. *)
Theorem no_source_is_a_noop g :
  settings g !! "PUBLICATIONS_SRC" = None ->
  add_publications g = {| final_context := context g; events := []; raised := None |}.
Proof. intros Hs. unfold Plugin.add_publications. rewrite Hs. reflexivity. Qed.

(** C5.  When the parser raises a [PybtexError] on the configured file,
    the call returns without raising, leaves the context as it was, and logs
    exactly one warning, in which the path and the text of the error occur. *)
Theorem parse_failure_logs_one_warning g refs_file e :
  settings g !! "PUBLICATIONS_SRC" = Some refs_file ->
  parse_file refs_file = Raise e ->
  is_PybtexError e = true ->
  exists w,
    add_publications g =
      {| final_context := context g;
         events := [ParseFile refs_file; LogWarn w];
         raised := None |} /\
    occurs_in refs_file w /\
    occurs_in (str_exn e) w.
Proof.
  intros Hs Hp He. exists (warning refs_file e).
  unfold Plugin.add_publications. rewrite Hs, Hp, He. split; [reflexivity|].
  unfold warning. split.
  - apply occurs_in_middle.
  - exists ("`pelican_bibtex` failed to parse file " ++ refs_file ++ ": "), "".
    rewrite !string_app_assoc. simpl.
    replace (str_exn e ++ "") with (str_exn e); [reflexivity|].
    induction (str_exn e) as [|c s IH]; simpl; congruence.
Qed.

(** C10 (as amended).  The three keys tell the outcomes apart.  A call
    that gets past the parser and returns has set "publications", "reports"
    and "unpublished" to lists; on a bibliography without entries it does
    return, and the three lists are empty.  When the parser raises a
    [PybtexError], or no source is configured, the call returns with the
    context it was given, so it creates none of the keys. *)
Theorem bucket_keys_tell_outcomes g :
  (forall refs_file entries,
     settings g !! "PUBLICATIONS_SRC" = Some refs_file ->
     parse_file refs_file = Ok entries ->
     (raised (add_publications g) = None ->
      exists p r u,
        final_context (add_publications g) =
          <["unpublished" := Bucket u]>
            (<["reports" := Bucket r]> (<["publications" := Bucket p]> (context g))) /\
        final_context (add_publications g) !! "publications" = Some (Bucket p) /\
        final_context (add_publications g) !! "reports" = Some (Bucket r) /\
        final_context (add_publications g) !! "unpublished" = Some (Bucket u)) /\
     (entries = [] ->
      raised (add_publications g) = None /\
      final_context (add_publications g) !! "publications" = Some (Bucket []) /\
      final_context (add_publications g) !! "reports" = Some (Bucket []) /\
      final_context (add_publications g) !! "unpublished" = Some (Bucket []))) /\
  (forall refs_file e,
     settings g !! "PUBLICATIONS_SRC" = Some refs_file ->
     parse_file refs_file = Raise e -> is_PybtexError e = true ->
     raised (add_publications g) = None /\
     final_context (add_publications g) = context g) /\
  (settings g !! "PUBLICATIONS_SRC" = None ->
   raised (add_publications g) = None /\
   final_context (add_publications g) = context g).
Proof.
  split; [|split].
  - intros refs_file entries Hs Hp. split.
    + intros Hret.
      destruct (add_publications_returned g refs_file entries Hs Hp Hret)
        as [b [p [r [u [_ [_ [_ [_ ->]]]]]]]].
      exists p, r, u. simpl. split; [reflexivity|]. apply three_keys.
    + intros ->. unfold Plugin.add_publications. rewrite Hs, Hp. simpl.
      split; [reflexivity|]. apply three_keys.
  - intros refs_file e Hs Hp He. unfold Plugin.add_publications.
    rewrite Hs, Hp, He. auto.
  - intros Hs. unfold Plugin.add_publications. rewrite Hs. auto.
Qed.

End PipelineFacts.

(* ===================================================================== *)
(** ** The sample bibliographies, run                                     *)
(* ===================================================================== *)

(** The value a computation returns, for naming it in a proof. *)
Ltac give_formatted :=
  match goal with
  | |- exists x, ?f = Ok (MyStyle.Rich x) =>
      let r := eval vm_compute in f in
      match r with
      | Ok (MyStyle.Rich ?t) => exists t; vm_compute; reflexivity
      end
  | |- exists y, ?f = Ok y /\ _ =>
      let r := eval vm_compute in f in
      match r with
      | Ok ?t => exists t; split; [vm_compute; reflexivity | right; eexists; reflexivity]
      end
  end.

Lemma every_record_in_exactly_one_bucket_witness :
  raised (Samples.run Py3 (Samples.site "refs.bib")) = None /\
  exists p r u,
    final_context (Samples.run Py3 (Samples.site "refs.bib")) !! "publications"
      = Some (Bucket p) /\
    final_context (Samples.run Py3 (Samples.site "refs.bib")) !! "reports"
      = Some (Bucket r) /\
    final_context (Samples.run Py3 (Samples.site "refs.bib")) !! "unpublished"
      = Some (Bucket u) /\
    forall k e,
      (k, e) ∈ [("s19", Samples.survey_2019); ("r", Samples.report); ("d", Samples.draft);
                ("s20", Samples.survey); ("t", Samples.talk)] ->
      exists f t,
        MyStyle.format_entry Samples.misc_only e = Ok f /\
        make_entry_res Py3 Samples.writer k e f = Ok t /\
        t ∈ (if String.eqb (type e) "article" then p
             else if String.eqb (type e) "unpublished" then u
             else r) /\
        length (filter (fun x => res_key x = k) (p ++ r ++ u)%list) = 1.
Proof.
  destruct (every_record_in_exactly_one_bucket Py3 (Samples.parser Samples.files)
              Samples.writer Samples.misc_only (Samples.site "refs.bib") "refs.bib"
              [("s19", Samples.survey_2019); ("r", Samples.report); ("d", Samples.draft);
               ("s20", Samples.survey); ("t", Samples.talk)])
    as [Hplaced Hreturns].
  - vm_compute. reflexivity.
  - vm_compute. reflexivity.
  - apply (bool_decide_unpack _). vm_compute. exact I.
  - assert (raised (Samples.run Py3 (Samples.site "refs.bib")) = None) as Hret.
    { apply Hreturns. intros k e Hin.
      repeat (apply elem_of_cons in Hin as [[= -> ->] | Hin]);
        [split; give_formatted .. | inversion Hin]. }
    split; [exact Hret | exact (Hplaced Hret)].
Defined.

(** C4, as it was stated, fails where formatting raises: the bibliography
    parses, its one record (a technical report without institution) gets no
    tuple, and the call raises. *)
Lemma record_without_tuple :
  Samples.parser Samples.files "report.bib" = Ok [("r", Samples.report_no_institution)] /\
  raised (Samples.run Py3 (Samples.site "report.bib"))
    = Some (FieldIsMissing "institution") /\
  final_context (Samples.run Py3 (Samples.site "report.bib")) !! "publications" = None /\
  final_context (Samples.run Py3 (Samples.site "report.bib")) !! "reports" = None /\
  final_context (Samples.run Py3 (Samples.site "report.bib")) !! "unpublished" = None.
Proof. vm_compute. repeat split; reflexivity. Qed.

(** C10, as it was stated, fails on the same bibliography: the parse
    succeeds and the call leaves the context without any of the keys. *)
Lemma successful_parse_without_keys :
  is_ok (Samples.parser Samples.files "report.bib") = true /\
  final_context (Samples.run Py3 (Samples.site "report.bib"))
    = context (Samples.site "report.bib") /\
  context (Samples.site "report.bib") !! "publications" = None /\
  context (Samples.site "report.bib") !! "reports" = None /\
  context (Samples.site "report.bib") !! "unpublished" = None.
Proof. vm_compute. repeat split; reflexivity. Qed.

Lemma no_source_is_a_noop_witness :
  Samples.run Py3 Samples.unconfigured =
    {| final_context := context Samples.unconfigured; events := []; raised := None |}.
Proof.
  apply (no_source_is_a_noop Py3 (Samples.parser Samples.files) Samples.writer
           Samples.misc_only Samples.unconfigured).
  vm_compute. reflexivity.
Defined.

Lemma parse_failure_logs_one_warning_witness :
  exists w,
    Samples.run Py3 (Samples.site "broken.bib") =
      {| final_context := context (Samples.site "broken.bib");
         events := [ParseFile "broken.bib"; LogWarn w];
         raised := None |} /\
    occurs_in "broken.bib" w /\
    occurs_in "syntax error in line 3: '=' expected" w.
Proof.
  apply (parse_failure_logs_one_warning Py3 (Samples.parser Samples.files) Samples.writer
           Samples.misc_only (Samples.site "broken.bib") "broken.bib"
           (PybtexError "syntax error in line 3: '=' expected")).
  - vm_compute. reflexivity.
  - vm_compute. reflexivity.
  - reflexivity.
Defined.

(** C1.  A record whose year is present but is not an integer
    ("in press"): the entry formats, then [int] raises [ValueError], which
    [except TypeError] does not catch; the call raises it and sets no key. *)
Theorem unparseable_year_raises_ValueError v :
  raised (Samples.run v (Samples.site "inpress.bib")) = Some (ValueError "in press") /\
  final_context (Samples.run v (Samples.site "inpress.bib"))
    = context (Samples.site "inpress.bib").
Proof. destruct v; vm_compute; split; reflexivity. Qed.

(** The same record without the year field is given the year [None]. *)
Lemma absent_year_is_None v :
  year_of v (del_field "year" Samples.in_press) = Ok None.
Proof. destruct v; vm_compute; reflexivity. Qed.

(** C2.  Two "misc" records, one dated 2020 and one without a year, under
    Python 3: sorting the reports compares [None] with an [int] and raises
    [TypeError]; "publications" has been set by then, "reports" and
    "unpublished" never are. *)
Theorem mixed_years_raise_TypeError_on_python3 :
  raised (Samples.run Py3 (Samples.site "mixed.bib")) = Some TypeError /\
  final_context (Samples.run Py3 (Samples.site "mixed.bib")) !! "publications"
    = Some (Bucket []) /\
  final_context (Samples.run Py3 (Samples.site "mixed.bib")) !! "reports" = None /\
  final_context (Samples.run Py3 (Samples.site "mixed.bib")) !! "unpublished" = None.
Proof. vm_compute. repeat split; reflexivity. Qed.

(** Under Python 2 the same bibliography is sorted, the undated record
    last. *)
Lemma mixed_years_sorted_on_python2 :
  raised (Samples.run Py2 (Samples.site "mixed.bib")) = None /\
  exists t u,
    final_context (Samples.run Py2 (Samples.site "mixed.bib")) !! "reports"
      = Some (Bucket [t; u]) /\
    itemgetter_last t = (Some 2020%Z, "") /\ itemgetter_last u = (None, "").
Proof. vm_compute. split; [reflexivity|]. eexists _, _. repeat split; reflexivity. Qed.

Lemma bucket_keys_tell_outcomes_witness :
  (raised (Samples.run Py3 (Samples.site "empty.bib")) = None /\
   final_context (Samples.run Py3 (Samples.site "empty.bib")) !! "publications"
     = Some (Bucket []) /\
   final_context (Samples.run Py3 (Samples.site "empty.bib")) !! "reports"
     = Some (Bucket []) /\
   final_context (Samples.run Py3 (Samples.site "empty.bib")) !! "unpublished"
     = Some (Bucket [])) /\
  (raised (Samples.run Py3 (Samples.site "broken.bib")) = None /\
   final_context (Samples.run Py3 (Samples.site "broken.bib"))
     = context (Samples.site "broken.bib")) /\
  (raised (Samples.run Py3 Samples.unconfigured) = None /\
   final_context (Samples.run Py3 Samples.unconfigured) = context Samples.unconfigured).
Proof.
  split; [|split].
  - destruct (bucket_keys_tell_outcomes Py3 (Samples.parser Samples.files) Samples.writer
                Samples.misc_only (Samples.site "empty.bib")) as [H _].
    apply (H "empty.bib" []); [vm_compute; reflexivity | vm_compute; reflexivity | reflexivity].
  - destruct (bucket_keys_tell_outcomes Py3 (Samples.parser Samples.files) Samples.writer
                Samples.misc_only (Samples.site "broken.bib")) as [_ [H _]].
    apply (H "broken.bib" (PybtexError "syntax error in line 3: '=' expected"));
      [vm_compute; reflexivity | vm_compute; reflexivity | reflexivity].
  - destruct (bucket_keys_tell_outcomes Py3 (Samples.parser Samples.files) Samples.writer
                Samples.misc_only Samples.unconfigured) as [_ [_ H]].
    apply H. vm_compute. reflexivity.
Defined.

(* ===================================================================== *)
(** ** Templates: what formatting depends on                              *)
(* ===================================================================== *)

(** Induction on templates, with the children of a node as a [Forall]. *)
Section TemplateInduction.
Variable P : template -> Prop.
Hypothesis H_lit : forall x, P (lit x).
Hypothesis H_field : forall n f, P (field n f).
Hypothesis H_names : forall r s s2 ls, P (names r s s2 ls).
Hypothesis H_join : forall s s2 ls cs, Forall P cs -> P (join s s2 ls cs).
Hypothesis H_sentence : forall cs, Forall P cs -> P (sentence cs).
Hypothesis H_optional : forall cs, Forall P cs -> P (optional cs).
Hypothesis H_first_of : forall cs, Forall P cs -> P (first_of cs).
Hypothesis H_tag : forall n cs, Forall P cs -> P (tag n cs).
Hypothesis H_href : forall cs, Forall P cs -> P (href cs).

Fixpoint template_induction (t : template) : P t :=
  let fix children (l : list template) : Forall P l :=
    match l with
    | [] => @List.Forall_nil _ P
    | c :: l' => @List.Forall_cons _ P c l' (template_induction c) (children l')
    end in
  match t with
  | lit x => H_lit x
  | field n f => H_field n f
  | names r s s2 ls => H_names r s s2 ls
  | join s s2 ls cs => H_join s s2 ls cs (children cs)
  | sentence cs => H_sentence cs (children cs)
  | optional cs => H_optional cs (children cs)
  | first_of cs => H_first_of cs (children cs)
  | tag n cs => H_tag n cs (children cs)
  | href cs => H_href cs (children cs)
  end.
End TemplateInduction.

Section ChildrenFacts.
Context {T : Type} (f g : T -> result rtext).

Lemma format_all_ext l : Forall (fun c => f c = g c) l -> format_all f l = format_all g l.
Proof. induction 1 as [|c l H _ IH]; simpl; [reflexivity | rewrite H, IH; reflexivity]. Qed.

Lemma first_nonempty_ext l :
  Forall (fun c => f c = g c) l -> first_nonempty f l = first_nonempty g l.
Proof. induction 1 as [|c l H _ IH]; simpl; [reflexivity | rewrite H, IH; reflexivity]. Qed.

Lemma format_all_ok l :
  Forall (fun c => exists x, f c = Ok x) l ->
  exists xs, format_all f l = Ok xs /\ length xs = length l.
Proof.
  induction 1 as [|c l [x H] _ [xs [IH Hlen]]]; simpl; [eauto|].
  rewrite H, IH. exists (x :: xs). simpl. auto.
Qed.

Lemma first_nonempty_ok l :
  Forall (fun c => exists x, f c = Ok x) l -> exists x, first_nonempty f l = Ok x.
Proof.
  induction 1 as [|c l [x H] _ IH]; simpl; [eauto|].
  rewrite H. destruct (truthy x); eauto.
Qed.

Lemma format_all_raise l ex :
  format_all f l = Raise ex -> exists c, c ∈ l /\ f c = Raise ex.
Proof.
  induction l as [|c l IH]; simpl; [discriminate|].
  destruct (f c) as [x|ex'] eqn:E.
  - destruct (format_all f l); [discriminate|]. intros [= ->].
    destruct (IH eq_refl) as [c' [Hin Hc']]. exists c'. split; [apply elem_of_cons|]; auto.
  - intros [= ->]. exists c. split; [apply elem_of_cons|]; auto.
Qed.

Lemma first_nonempty_raise l ex :
  first_nonempty f l = Raise ex -> exists c, c ∈ l /\ f c = Raise ex.
Proof.
  induction l as [|c l IH]; simpl; [discriminate|].
  destruct (f c) as [x|ex'] eqn:E.
  - destruct (truthy x); [discriminate|]. intros H.
    destruct (IH H) as [c' [Hin Hc']]. exists c'. split; [apply elem_of_cons|]; auto.
  - intros [= ->]. exists c. split; [apply elem_of_cons|]; auto.
Qed.

Lemma format_all_raises l c :
  c ∈ l -> (exists ex, f c = Raise ex) -> exists ex, format_all f l = Raise ex.
Proof.
  intros Hin [ex Hc]. induction l as [|c' l IH]; [inversion Hin|]. simpl.
  destruct (f c') as [x|ex'] eqn:E; [|eauto].
  apply elem_of_cons in Hin as [-> | Hin]; [congruence|].
  destruct (IH Hin) as [ex'' ->]. eauto.
Qed.

Lemma format_all_length l xs : format_all f l = Ok xs -> length xs = length l.
Proof.
  revert xs. induction l as [|c l IH]; simpl; intros xs.
  - intros [= <-]. reflexivity.
  - destruct (f c); [|discriminate]. destruct (format_all f l); [|discriminate].
    intros [= <-]. simpl. f_equal. auto.
Qed.

End ChildrenFacts.

(** A template that has no [field] node for a name formats an entry the
    same whether the entry has that field or not. *)
Lemma format_data_unread name v e t :
  reads name t = false ->
  format_data t (set_field name v e) = format_data t (del_field name e).
Proof.
  induction t as [x|n f|r s s2 ls|s s2 ls cs IH|cs IH|cs IH|cs IH|n cs IH|cs IH]
    using template_induction; simpl; intros Hr; try reflexivity.
  1: { apply String.eqb_neq in Hr.
       rewrite lookup_insert_ne, lookup_delete_ne by congruence. reflexivity. }
  all: assert (Forall (fun c => format_data c (set_field name v e)
                               = format_data c (del_field name e)) cs) as Hcs
    by (apply Forall_forall; intros c Hc; rewrite Forall_forall in IH; apply (IH c Hc);
        apply not_true_is_false; intros Hc'; apply not_true_iff_false in Hr; apply Hr;
        apply existsb_exists; exists c; split; [apply list_elem_of_In|]; assumption).
  all: try (rewrite (format_all_ext _ _ cs Hcs); reflexivity).
  apply first_nonempty_ext. exact Hcs.
Qed.

(** A well-formed template raises nothing but [FieldIsMissing]. *)
Lemma raises_only_missing e t :
  well_formed t = true ->
  forall ex, format_data t e = Raise ex -> exists n, ex = FieldIsMissing n.
Proof.
  induction t as [x|n f|r s s2 ls|s s2 ls cs IH|cs IH|cs IH|cs IH|n cs IH|cs IH]
    using template_induction; simpl; intros Hw ex.
  1: discriminate.
  1: { destruct (fields e !! n); [discriminate|]. intros [= <-]. eauto. }
  1: { destruct (persons e !! r); [discriminate|]. intros [= <-]. eauto. }
  all: try apply andb_true_iff in Hw as [Hlen Hw].
  all: assert (forall ex', format_all (fun c => format_data c e) cs = Raise ex' ->
                      exists n, ex' = FieldIsMissing n) as Hall
    by (intros ex' H; apply format_all_raise in H as [c [Hc H]];
        rewrite Forall_forall in IH; apply (IH c Hc); [|exact H];
        rewrite forallb_forall in Hw; apply Hw, list_elem_of_In, Hc).
  all: try (destruct (format_all (fun c => format_data c e) cs) as [xs|ex'] eqn:E;
            [discriminate | intros [= <-]; eauto]).
  - destruct (format_all (fun c => format_data c e) cs) as [xs|ex'] eqn:E; [discriminate|].
    destruct (Hall ex' eq_refl) as [n ->]. discriminate.
  - intros H. apply first_nonempty_raise in H as [c [Hc H]].
    rewrite Forall_forall in IH. apply (IH c Hc); [|exact H].
    rewrite forallb_forall in Hw. apply Hw, list_elem_of_In, Hc.
  - destruct (format_all (fun c => format_data c e) cs) as [[|url xs]|ex'] eqn:E.
    + apply format_all_length in E. destruct cs; [discriminate Hlen | discriminate E].
    + discriminate.
    + intros [= <-]. eauto.
Qed.

(** If everything it needs is present, a well-formed template formats. *)
Lemma formats_when_present e t :
  well_formed t = true -> Forall (present e) (needs t) ->
  exists x, format_data t e = Ok x.
Proof.
  induction t as [x|n f|r s s2 ls|s s2 ls cs IH|cs IH|cs IH|cs IH|n cs IH|cs IH]
    using template_induction; simpl; intros Hw Hp.
  1: eauto.
  1: { apply Forall_inv in Hp as [x ->]. eauto. }
  1: { apply Forall_inv in Hp as [x ->]. eauto. }
  all: try apply andb_true_iff in Hw as [Hlen Hw].
  all: try (assert (Forall (fun c => exists x, format_data c e = Ok x) cs) as Hcs
    by (apply Forall_forall; intros c Hc; rewrite Forall_forall in IH; apply (IH c Hc);
        [rewrite forallb_forall in Hw; apply Hw, list_elem_of_In, Hc |
         apply Forall_flat_map in Hp; rewrite Forall_forall in Hp; apply Hp, Hc])).
  all: try (destruct (format_all_ok _ cs Hcs) as [xs [-> Hxs]]).
  - eauto.
  - eauto.
  - destruct (format_all (fun c => format_data c e) cs) as [xs|ex] eqn:E; [eauto|].
    apply format_all_raise in E as [c [Hc E]].
    destruct (raises_only_missing e c) with (ex := ex) as [n' ->]; [|exact E|eauto].
    rewrite forallb_forall in Hw. apply Hw, list_elem_of_In, Hc.
  - apply first_nonempty_ok. exact Hcs.
  - eauto.
  - destruct xs; [destruct cs; simpl in *; discriminate | eauto].
Qed.

(** If something it always needs is absent, a template raises. *)
Lemma raises_when_absent e q t :
  q ∈ always_needs t -> ~ present e q -> exists ex, format_data t e = Raise ex.
Proof.
  induction t as [x|n f|r s s2 ls|s s2 ls cs IH|cs IH|cs IH|cs IH|n cs IH|cs IH]
    using template_induction; simpl; intros Hq Hp.
  1: inversion Hq.
  1: { apply list_elem_of_singleton in Hq as ->. simpl in Hp.
       destruct (fields e !! n); [exfalso; apply Hp; eauto | eauto]. }
  1: { apply list_elem_of_singleton in Hq as ->. simpl in Hp.
       destruct (persons e !! r); [exfalso; apply Hp; eauto | eauto]. }
  all: try (apply list_elem_of_In, in_flat_map in Hq as [c [Hc Hq]];
            apply list_elem_of_In in Hc, Hq;
            rewrite Forall_forall in IH;
            destruct (format_all_raises (fun c => format_data c e) cs c Hc
                        (IH c Hc Hq Hp)) as [ex ->]; eauto).
  - inversion Hq.
  - destruct cs as [|c cs]; [inversion Hq|]. apply Forall_inv in IH.
    destruct (IH Hq Hp) as [ex H]. simpl. rewrite H. eauto.
Qed.

(* ===================================================================== *)
(** ** [MyStyle]: the DOI and the required fields                         *)
(* ===================================================================== *)

Lemma own_templates_do_not_read_doi :
  reads "doi" MyStyle.format_article = false /\
  reads "doi" MyStyle.format_unpublished = false /\
  reads "doi" MyStyle.format_techreport = false /\
  reads "doi" MyStyle.format_web_refs = false.
Proof. repeat split; reflexivity. Qed.

(** C6.  Provided the formatters inherited from the base style read the
    "doi" field only through [format_doi] (which [MyStyle] empties), an
    entry of any type is formatted the same -- same rich text or same
    exception, hence same HTML -- with a "doi" field of any content as
    without one. *)
Theorem doi_never_rendered (inherited : string -> option template) e doi :
  (forall ty t, inherited ty = Some t -> reads "doi" t = false) ->
  MyStyle.format_entry inherited (set_field "doi" doi e)
    = MyStyle.format_entry inherited (del_field "doi" e) /\
  (f ← MyStyle.format_entry inherited (set_field "doi" doi e); MyStyle.render_text f)
    = (f ← MyStyle.format_entry inherited (del_field "doi" e); MyStyle.render_text f).
Proof.
  intros Hbase.
  assert (MyStyle.format_entry inherited (set_field "doi" doi e)
          = MyStyle.format_entry inherited (del_field "doi" e)) as H.
  { unfold MyStyle.format_entry.
    change (type (set_field "doi" doi e)) with (type e).
    change (type (del_field "doi" e)) with (type e).
    destruct own_templates_do_not_read_doi as [Ha [Hu [Ht _]]].
    rewrite !(format_data_unread "doi" doi e) by assumption.
    destruct (inherited (type e)) as [t|] eqn:E; [|reflexivity].
    rewrite (format_data_unread "doi" doi e t (Hbase _ _ E)). reflexivity. }
  split; [exact H | rewrite H; reflexivity].
Qed.

Lemma own_templates_needs :
  needs MyStyle.format_article = required "article" /\
  needs MyStyle.format_unpublished = required "unpublished" /\
  needs MyStyle.format_techreport = required "techreport" /\
  always_needs MyStyle.format_article = required "article" /\
  always_needs MyStyle.format_unpublished = required "unpublished" /\
  always_needs MyStyle.format_techreport = required "techreport" /\
  well_formed MyStyle.format_article = true /\
  well_formed MyStyle.format_unpublished = true /\
  well_formed MyStyle.format_techreport = true.
Proof. repeat split; reflexivity. Qed.

Lemma own_template_formats e t ty :
  needs t = required ty -> always_needs t = required ty -> well_formed t = true ->
  (Forall (present e) (required ty) -> exists x, MyStyle.as_text (format_data t e) = Ok (MyStyle.Rich x)) /\
  (forall q, q ∈ required ty -> ~ present e q ->
     exists n, MyStyle.as_text (format_data t e) = Raise (FieldIsMissing n)).
Proof.
  intros Hn Ha Hw. split.
  - intros Hp. rewrite <- Hn in Hp.
    destruct (formats_when_present e t Hw Hp) as [x ->]. simpl. eauto.
  - intros q Hq Hp. rewrite <- Ha in Hq.
    destruct (raises_when_absent e q t Hq Hp) as [ex H].
    destruct (raises_only_missing e t Hw ex H) as [n ->]. rewrite H. simpl. eauto.
Qed.

(** C3 (as amended).  For an article, an unpublished or a technical-report
    record, formatting returns text when the required fields of its type
    are present -- title, author and year, the journal of an article, the
    institution of a technical report -- whatever other fields are missing;
    and it raises [FieldIsMissing] when one of the required fields is
    absent. *)
Theorem formatting_raises_iff_required_field_missing
    (inherited : string -> option template) e :
  type e = "article" \/ type e = "unpublished" \/ type e = "techreport" ->
  (Forall (present e) (required (type e)) ->
     exists x, MyStyle.format_entry inherited e = Ok (MyStyle.Rich x)) /\
  (forall q, q ∈ required (type e) -> ~ present e q ->
     exists n, MyStyle.format_entry inherited e = Raise (FieldIsMissing n)).
Proof.
  destruct own_templates_needs as [N1 [N2 [N3 [A1 [A2 [A3 [W1 [W2 W3]]]]]]]].
  unfold MyStyle.format_entry. intros [H | [H | H]]; rewrite H.
  - exact (own_template_formats e _ "article" N1 A1 W1).
  - exact (own_template_formats e _ "unpublished" N2 A2 W2).
  - exact (own_template_formats e _ "techreport" N3 A3 W3).
Qed.



(* ===================================================================== *)
(** ** Rich text: what is rendered                                        *)
(* ===================================================================== *)

Import Html.

Section RtextInduction.
Variable P : rtext -> Prop.
Hypothesis H_str : forall s, P (Str s).
Hypothesis H_symbol : forall y, P (Symbol y).
Hypothesis H_text : forall ps, Forall P ps -> P (Text ps).
Hypothesis H_tag : forall n ps, Forall P ps -> P (Tag n ps).
Hypothesis H_href : forall url ps, P url -> Forall P ps -> P (HRef url ps).

Fixpoint rtext_induction (t : rtext) : P t :=
  let fix parts (l : list rtext) : Forall P l :=
    match l with
    | [] => @List.Forall_nil _ P
    | p :: l' => @List.Forall_cons _ P p l' (rtext_induction p) (parts l')
    end in
  match t with
  | Str s => H_str s
  | Symbol y => H_symbol y
  | Text ps => H_text ps (parts ps)
  | Tag n ps => H_tag n ps (parts ps)
  | HRef url ps => H_href url ps (rtext_induction url) (parts ps)
  end.
End RtextInduction.

Lemma append_nil_r (s : string) : s ++ "" = s.
Proof. induction s as [|c s IH]; simpl; congruence. Qed.

Lemma append_eq_nil (a b : string) : a ++ b = "" <-> a = "" /\ b = "".
Proof.
  destruct a; simpl; split.
  - auto.
  - intros [_ H]. exact H.
  - discriminate.
  - intros [H _]. discriminate.
Qed.

Lemma nonempty_false s : nonempty s = false <-> s = "".
Proof. unfold nonempty. rewrite negb_false_iff. apply String.eqb_eq. Qed.

Lemma nonempty_true s : nonempty s = true <-> s <> "".
Proof. unfold nonempty. rewrite negb_true_iff. apply String.eqb_neq. Qed.

Lemma nonempty_length s : nonempty s = negb (Nat.eqb (String.length s) 0).
Proof. destruct s; reflexivity. Qed.


Lemma escape_eq_nil s : escape s = "" <-> s = "".
Proof.
  destruct s as [|c s]; simpl; [tauto|]. split; [|discriminate].
  destruct (Ascii.eqb c "&"), (Ascii.eqb c "<"), (Ascii.eqb c ">"); discriminate.
Qed.


Lemma sum_map_zero {T} (f : T -> nat) l : sum_map f l = 0 <-> Forall (fun p => f p = 0) l.
Proof.
  induction l as [|p l IH]; simpl.
  - split; auto.
  - rewrite Forall_cons, <- IH. lia.
Qed.

Lemma concat_map_nil {T} (f : T -> string) l :
  concat_map f l = "" <-> Forall (fun p => f p = "") l.
Proof.
  induction l as [|p l IH]; simpl.
  - split; auto.
  - rewrite Forall_cons, <- IH. apply append_eq_nil.
Qed.

Lemma format_tag_nil n s : format_tag n s = "" <-> s = "".
Proof.
  unfold format_tag. destruct (String.eqb_spec s "") as [-> | H]; [tauto|].
  split; [discriminate | tauto].
Qed.

Lemma format_href_nil url s : format_href url s = "" <-> s = "".
Proof.
  unfold format_href. destruct (String.eqb_spec s "") as [-> | H]; [tauto|].
  split; [discriminate | tauto].
Qed.

Lemma Forall_iff_pointwise {T} (A B : T -> Prop) l :
  Forall (fun p => A p <-> B p) l -> (Forall A l <-> Forall B l).
Proof.
  induction 1 as [|p l H _ IH]; [split; constructor|].
  rewrite !Forall_cons. tauto.
Qed.

(** A text has no characters exactly when it renders to nothing, and
    exactly when its plain text is empty. *)
Lemma len_zero_render t : len t = 0 <-> render t = "".
Proof.
  induction t as [s|y|ps IH|n ps IH|url ps _ IH] using rtext_induction; simpl.
  - rewrite escape_eq_nil. destruct s; simpl; split; congruence.
  - destruct y; split; discriminate.
  - rewrite sum_map_zero, concat_map_nil. apply Forall_iff_pointwise, IH.
  - rewrite format_tag_nil, sum_map_zero, concat_map_nil. apply Forall_iff_pointwise, IH.
  - rewrite format_href_nil, sum_map_zero, concat_map_nil. apply Forall_iff_pointwise, IH.
Qed.

Lemma len_zero_plaintext t : len t = 0 <-> plaintext t = "".
Proof.
  induction t as [s|y|ps IH|n ps IH|url ps _ IH] using rtext_induction; simpl.
  - destruct s; simpl; split; congruence.
  - destruct y; split; discriminate.
  - rewrite sum_map_zero, concat_map_nil. apply Forall_iff_pointwise, IH.
  - rewrite sum_map_zero, concat_map_nil. apply Forall_iff_pointwise, IH.
  - rewrite sum_map_zero, concat_map_nil. apply Forall_iff_pointwise, IH.
Qed.

Lemma truthy_render t : truthy t = nonempty (render t).
Proof.
  unfold truthy. destruct (Nat.eqb_spec (len t) 0) as [H | H]; simpl; symmetry.
  - apply nonempty_false, len_zero_render, H.
  - apply nonempty_true. rewrite <- len_zero_render. exact H.
Qed.

Lemma truthy_plaintext t : truthy t = nonempty (plaintext t).
Proof.
  unfold truthy. destruct (Nat.eqb_spec (len t) 0) as [H | H]; simpl; symmetry.
  - apply nonempty_false, len_zero_plaintext, H.
  - apply nonempty_true. rewrite <- len_zero_plaintext. exact H.
Qed.

Lemma concat_sep_snoc sep l x :
  l <> [] -> concat_sep sep (l ++ [x]) = concat_sep sep l ++ sep ++ x.
Proof.
  induction l as [|p l IH]; [congruence|]. intros _. destruct l as [|q l].
  - reflexivity.
  - change (concat_sep sep ((p :: q :: l) ++ [x]))
      with (p ++ sep ++ concat_sep sep ((q :: l) ++ [x])).
    rewrite IH by discriminate.
    change (concat_sep sep (p :: q :: l)) with (p ++ sep ++ concat_sep sep (q :: l)).
    rewrite !string_app_assoc. reflexivity.
Qed.


(** [render] and [plaintext] both print a [Text] part by part and print
    nothing exactly for the empty texts; what follows holds for both. *)
Section Printed.
Variable out : rtext -> string.
Hypothesis out_Text : forall ps, out (Text ps) = concat_map out ps.
Hypothesis out_truthy : forall t, truthy t = nonempty (out t).

Lemma out_join sep l : out (Richtext.join sep l) = concat_sep (out sep) (List.map out l).
Proof.
  unfold Richtext.join. rewrite out_Text.
  induction l as [|p l IH]; [reflexivity|]. destruct l as [|q l].
  - simpl. apply append_nil_r.
  - change (intersperse sep (p :: q :: l)) with (p :: sep :: intersperse sep (q :: l)).
    change (concat_map out (p :: sep :: intersperse sep (q :: l)))
      with (out p ++ out sep ++ concat_map out (intersperse sep (q :: l))).
    rewrite IH. reflexivity.
Qed.

Lemma out_filter_truthy l :
  List.map out (List.filter truthy l) = List.filter nonempty (List.map out l).
Proof.
  induction l as [|p l IH]; simpl; [reflexivity|].
  rewrite <- out_truthy. destruct (truthy p); simpl; congruence.
Qed.

(** [join] with one separator: the non-empty parts, separated. *)
Lemma out_join_parts sep parts :
  out (join_parts sep sep sep parts) = join_nonempty (out sep) (List.map out parts).
Proof.
  unfold join_parts, join_nonempty. rewrite <- out_filter_truthy.
  destruct (List.filter truthy parts) as [|a [|b [|c l]]] eqn:E.
  - rewrite out_Text. reflexivity.
  - rewrite out_Text. simpl. apply append_nil_r.
  - apply out_join.
  - remember (a :: b :: c :: l) as L eqn:HL.
    assert (L <> []) as HL1 by (subst L; discriminate).
    assert (List.map out (removelast L) <> []) as HL2 by (subst L; simpl; discriminate).
    rewrite out_join. cbn [List.map]. rewrite out_join.
    transitivity (concat_sep (out sep)
                    (List.map out (removelast L ++ [List.last L (Text [])]))).
    + rewrite List.map_app. cbn [List.map].
      rewrite concat_sep_snoc by exact HL2. reflexivity.
    + rewrite <- app_removelast_last by exact HL1. reflexivity.
Qed.



End Printed.

Lemma render_join_parts sep parts :
  render (join_parts sep sep sep parts) = join_nonempty (render sep) (List.map render parts).
Proof. apply out_join_parts; [reflexivity | apply truthy_render]. Qed.

Lemma plaintext_join_parts sep parts :
  plaintext (join_parts sep sep sep parts)
    = join_nonempty (plaintext sep) (List.map plaintext parts).
Proof. apply out_join_parts; [reflexivity | apply truthy_plaintext]. Qed.




Lemma render_add_period t :
  render (add_period t)
    = render t ++ (if truthy t && negb (is_terminated (plaintext t)) then "." else "").
Proof.
  unfold add_period. destruct (truthy t && negb (is_terminated (plaintext t))); simpl.
  - reflexivity.
  - symmetry. apply append_nil_r.
Qed.

(* ===================================================================== *)
(** ** [MyStyle]: the venue sentences                                     *)
(* ===================================================================== *)

#[local] Arguments join_parts : simpl never.
#[local] Arguments add_period : simpl never.
#[local] Arguments dashify : simpl never.
#[local] Arguments truthy : simpl never.


Lemma last_char_append a d : d <> "" -> last_char (a ++ d) = last_char d.
Proof.
  intros Hd. induction a as [|c a IH]; [reflexivity|].
  simpl. rewrite IH. destruct (a ++ d) eqn:E; [|reflexivity].
  apply append_eq_nil in E as [_ E]. congruence.
Qed.


























(* ===================================================================== *)
(** ** The sample records, formatted                                      *)
(* ===================================================================== *)

Lemma doi_never_rendered_witness :
  MyStyle.format_entry Samples.misc_only (set_field "doi" "10.1145/3386252" Samples.survey)
    = MyStyle.format_entry Samples.misc_only (del_field "doi" Samples.survey) /\
  (f ← MyStyle.format_entry Samples.misc_only
         (set_field "doi" "10.1145/3386252" Samples.survey);
   MyStyle.render_text f)
    = (f ← MyStyle.format_entry Samples.misc_only (del_field "doi" Samples.survey);
       MyStyle.render_text f).
Proof.
  apply (doi_never_rendered Samples.misc_only Samples.survey "10.1145/3386252").
  intros ty t. unfold Samples.misc_only.
  destruct (String.eqb ty "misc"); [intros [= <-]; reflexivity | discriminate].
Defined.

(** The technical report of the specification's scenario, without an
    institution: formatting raises, and so does the call. *)
Lemma techreport_without_institution_raises :
  MyStyle.format_entry Samples.misc_only Samples.report_no_institution
    = Raise (FieldIsMissing "institution") /\
  raised (Samples.run Py3 (Samples.site "report.bib"))
    = Some (FieldIsMissing "institution").
Proof. vm_compute. split; reflexivity. Qed.

Lemma formatting_raises_iff_required_field_missing_witness :
  (exists x, MyStyle.format_entry Samples.misc_only Samples.report = Ok (MyStyle.Rich x)) /\
  (exists n, MyStyle.format_entry Samples.misc_only Samples.report_no_institution
             = Raise (FieldIsMissing n)).
Proof.
  split.
  - apply (formatting_raises_iff_required_field_missing Samples.misc_only Samples.report).
    + right. right. reflexivity.
    + repeat constructor; vm_compute; eauto.
  - apply (formatting_raises_iff_required_field_missing Samples.misc_only
             Samples.report_no_institution) with (q := a_field "institution").
    + right. right. reflexivity.
    + apply list_elem_of_In. vm_compute. auto.
    + intros [x Hx]. vm_compute in Hx. discriminate Hx.
Defined.



(** An article with a volume and no pages: nothing of the volume is
    rendered. *)
Lemma volume_without_pages_is_left_out :
  volume_and_pages_html Venue.volume_only = "" /\
  exists s, format_data MyStyle.article_sentence Venue.volume_only = Ok s /\
            render s = "<em>Nature</em>, 2020.".
Proof. split; [vm_compute; reflexivity|]. eexists. split; vm_compute; reflexivity. Qed.



(* ===================================================================== *)
(** ** More about [add_publications]                                      *)
(* ===================================================================== *)

Section PipelineMore.

Context (v : version)
        (parse_file : string -> result (list (string * Entry)))
        (write_stream : string -> Entry -> string)
        (inherited : string -> option template).

Local Abbreviation add_publications := (add_publications v parse_file write_stream inherited).
Local Abbreviation item_res := (item_res v write_stream inherited).
Local Abbreviation loop := (loop v write_stream inherited).
Local Abbreviation make_entry_res := (make_entry_res v write_stream).

(** The context a call ends with is the one it was given with some of
    "publications", "reports", "unpublished" set, in this order. *)
Lemma final_context_shape g :
  final_context (add_publications g) = context g \/
  (exists p, final_context (add_publications g) = <["publications" := Bucket p]> (context g)) \/
  (exists p r, final_context (add_publications g)
               = <["reports" := Bucket r]> (<["publications" := Bucket p]> (context g))) \/
  (exists p r u, final_context (add_publications g)
                 = <["unpublished" := Bucket u]>
                     (<["reports" := Bucket r]> (<["publications" := Bucket p]> (context g)))).
Proof.
  unfold Plugin.add_publications.
  destruct (settings g !! "PUBLICATIONS_SRC") as [refs_file|]; [|auto].
  destruct (parse_file refs_file) as [entries|e]; [|destruct (is_PybtexError e); auto].
  destruct (loop entries _ entries) as [b|]; [|auto].
  destruct (sorted_reverse v itemgetter_last (publications b)) as [p|]; [|auto].
  destruct (sorted_reverse v itemgetter_last (reports b)) as [r|]; [|simpl; eauto].
  destruct (sorted_reverse v itemgetter_last (unpublished b)) as [u|]; simpl; eauto 7.
Qed.

(** X1.  Whatever happens -- return or exception -- every key of the
    context other than "publications", "reports" and "unpublished" keeps
    its value. *)
Theorem other_context_keys_untouched g k :
  k <> "publications" -> k <> "reports" -> k <> "unpublished" ->
  final_context (add_publications g) !! k = context g !! k.
Proof.
  intros H1 H2 H3.
  destruct (final_context_shape g) as [-> | [[p ->] | [[p [r ->]] | [p [r [u ->]]]]]];
    rewrite ?lookup_insert_ne by congruence; reflexivity.
Qed.


(** X3.  The parser is called once, with the configured path, and nothing
    is logged unless it raises: when the parse succeeds the only event of
    the call is the parse, whether the call then returns or raises. *)
Theorem nothing_logged_after_a_successful_parse g refs_file entries :
  settings g !! "PUBLICATIONS_SRC" = Some refs_file ->
  parse_file refs_file = Ok entries ->
  events (add_publications g) = [ParseFile refs_file].
Proof.
  intros Hs Hp. unfold Plugin.add_publications. rewrite Hs, Hp.
  destruct (loop entries _ entries) as [b|]; [|reflexivity].
  destruct (sorted_reverse v itemgetter_last (publications b)) as [p|]; [|reflexivity].
  destruct (sorted_reverse v itemgetter_last (reports b)) as [r|]; [|reflexivity].
  destruct (sorted_reverse v itemgetter_last (unpublished b)) as [u|]; reflexivity.
Qed.

Lemma loop_raises all items : forall b item,
  item ∈ items -> (exists ex, item_res all item = Raise ex) ->
  exists ex, loop all b items = Raise ex.
Proof.
  induction items as [|i items IH]; intros b item Hin Hex; [inversion Hin|]. simpl.
  unfold Plugin.loop_body.
  destruct (item_res all i) as [er|ex] eqn:E; simpl; [|eauto].
  apply elem_of_cons in Hin as [-> | Hin].
  - destruct Hex as [ex Hex]. congruence.
  - eapply IH; eauto.
Qed.

(** X4.  One record that cannot be formatted spoils the whole file: when
    formatting any record of a parsed bibliography raises, the call raises
    and the context is left as it was -- no list is stored, not even for
    the records that were fine. *)
Theorem one_bad_record_aborts_the_run g refs_file entries k e ex :
  settings g !! "PUBLICATIONS_SRC" = Some refs_file ->
  parse_file refs_file = Ok entries ->
  (k, e) ∈ entries ->
  MyStyle.format_entry inherited e = Raise ex ->
  (exists ex', raised (add_publications g) = Some ex') /\
  final_context (add_publications g) = context g.
Proof.
  intros Hs Hp Hin Hf.
  destruct (loop_raises entries entries
              {| publications := []; reports := []; unpublished := [] |} (k, e) Hin)
    as [ex' Hl].
  { exists ex. unfold Plugin.item_res. simpl. rewrite Hf. reflexivity. }
  unfold Plugin.add_publications. rewrite Hs, Hp, Hl. simpl. eauto.
Qed.

(** X5.  Calling the plugin again on the context it produced changes
    nothing: the lists are built anew from the file and replace the stored
    ones, they are not appended to. *)
Theorem add_publications_idempotent g :
  let g' := {| settings := settings g; context := final_context (add_publications g) |} in
  final_context (add_publications g') = final_context (add_publications g) /\
  raised (add_publications g') = raised (add_publications g) /\
  events (add_publications g') = events (add_publications g).
Proof.
  simpl. unfold Plugin.add_publications. simpl.
  destruct (settings g !! "PUBLICATIONS_SRC") as [refs_file|]; [|auto].
  destruct (parse_file refs_file) as [entries|e]; [|destruct (is_PybtexError e); auto].
  destruct (loop entries _ entries) as [b|]; [|auto].
  destruct (sorted_reverse v itemgetter_last (publications b)) as [p|]; [|auto].
  destruct (sorted_reverse v itemgetter_last (reports b)) as [r|]; simpl.
  - destruct (sorted_reverse v itemgetter_last (unpublished b)) as [u|]; simpl;
      (split; [|auto]); apply map_eq; intros i;
      rewrite !lookup_insert; repeat case_decide; reflexivity.
  - split; [|auto]. apply insert_insert_eq.
Qed.

End PipelineMore.

(* ===================================================================== *)
(** ** More about the order of the lists                                  *)
(* ===================================================================== *)

Lemma str_compare_le a b : String.compare a b <> Gt <-> String.le a b.
Proof.
  unfold String.le, String.leb. destruct (String.compare a b); simpl; split;
    intros H; try exact I; try congruence; try destruct H.
Qed.

Lemma str_compare_trans a b c :
  String.compare a b <> Lt -> String.compare b c <> Lt -> String.compare a c <> Lt.
Proof.
  intros H1 H2.
  assert (String.le c b) as L1.
  { apply str_compare_le. rewrite String.compare_antisym.
    destruct (String.compare b c); simpl; congruence. }
  assert (String.le b a) as L2.
  { apply str_compare_le. rewrite String.compare_antisym.
    destruct (String.compare a b); simpl; congruence. }
  assert (String.le c a) as L by (etransitivity; eassumption).
  apply str_compare_le in L. rewrite String.compare_antisym.
  destruct (String.compare c a); simpl; congruence.
Qed.

Lemma year_cmp_Eq a b : year_cmp a b = Eq -> a = b.
Proof.
  destruct a, b; simpl; try discriminate; [|reflexivity].
  intros H. apply Z.compare_eq in H. congruence.
Qed.

Lemma year_cmp_Gt_trans a b c :
  year_cmp a b = Gt -> year_cmp b c <> Lt -> year_cmp a c = Gt.
Proof.
  destruct a as [x|], b as [y|], c as [z|]; simpl; try congruence; try reflexivity.
  intros H1 H2. apply Z.compare_gt_iff in H1. apply Z.compare_gt_iff.
  destruct (Z.compare_spec y z); try congruence; lia.
Qed.

(** [>=] on keys is transitive. *)
Lemma key_ge_trans a b c : key_ge a b -> key_ge b c -> key_ge a c.
Proof.
  unfold key_ge, key_cmp. intros H1 H2.
  destruct (year_cmp a.1 b.1) eqn:E1; simpl in H1; [|congruence|].
  - apply year_cmp_Eq in E1. rewrite E1.
    destruct (year_cmp b.1 c.1) eqn:E2; simpl in *; [|congruence|congruence].
    eapply str_compare_trans; eassumption.
  - assert (year_cmp b.1 c.1 <> Lt) as N.
    { destruct (year_cmp b.1 c.1); simpl in H2; congruence. }
    rewrite (year_cmp_Gt_trans _ _ _ E1 N). congruence.
Qed.

Lemma key_ge_refl a : key_ge a a.
Proof.
  unfold key_ge. pose proof (key_cmp_antisym a a) as H.
  destruct (key_cmp a a); simpl in H; congruence.
Qed.

Section OrderFacts.
Context {A : Type} (v : version) (key : A -> sort_key).

(** In a descending list every element is [>=] all the later ones. *)
Lemma descending_all a l :
  descending key (a :: l) -> Forall (fun b => key_ge (key a) (key b)) l.
Proof.
  revert a. induction l as [|b l IH]; intros a D; [constructor|].
  destruct D as [Hab D]. constructor; [exact Hab|].
  eapply Forall_impl; [apply IH, D|]. intros c Hc. simpl in Hc.
  eapply key_ge_trans; eassumption.
Qed.

Lemma descending_tail a l : descending key (a :: l) -> descending key l.
Proof. destruct l; simpl; tauto. Qed.

Lemma descending_lookup l : descending key l ->
  forall i j x y, l !! i = Some x -> l !! j = Some y -> i < j -> key_ge (key x) (key y).
Proof.
  induction l as [|a l IH]; intros D i j x y Hi Hj Hij; [discriminate|].
  destruct j as [|j]; [lia|]. simpl in Hj. destruct i as [|i].
  - injection Hi as <-. apply descending_all in D. rewrite Forall_forall in D.
    apply D. eapply list_elem_of_lookup_2; eauto.
  - simpl in Hi. eapply (IH (descending_tail _ _ D) i j); eauto. lia.
Qed.

Lemma filter_none (P : A -> Prop) `{forall a, Decision (P a)} l :
  Forall (fun a => ~ P a) l -> filter P l = [].
Proof.
  induction 1 as [|a l Ha _ IH]; [reflexivity|].
  rewrite filter_cons_False by exact Ha. exact IH.
Qed.

(** Inserting keeps, for every key, the elements with that key in their
    order, the new element last. *)
Lemma insert_desc_stable (k : sort_key) x l l' :
  descending key l -> insert_desc v key x l = Ok l' ->
  filter (fun a => key a = k) l'
    = (filter (fun a => key a = k) l ++ filter (fun a => key a = k) [x])%list.
Proof.
  revert l'. induction l as [|y l IH]; intros l' D; simpl.
  - intros [= <-]. reflexivity.
  - destruct (key_lt v (key y) (key x)) as [[|]|] eqn:E; try discriminate.
    + intros [= <-].
      destruct (decide (key x = k)) as [Hk | Hk].
      * assert (filter (fun a => key a = k) (y :: l) = []) as Hnil.
        { apply key_lt_cmp in E.
          assert (key_cmp (key y) (key x) = Lt) as Hlt
            by (destruct (key_cmp (key y) (key x)); congruence).
          pose proof (descending_all _ _ D) as Hall.
          apply filter_none. constructor.
          - intros Hy. rewrite <- Hk in Hy. rewrite Hy in Hlt.
            pose proof (key_ge_refl (key x)). congruence.
          - eapply Forall_impl; [exact Hall|]. intros z Hz Hzk. simpl in Hz.
            rewrite <- Hk in Hzk. rewrite Hzk in Hz. congruence. }
        rewrite (filter_cons_True _ x (y :: l)) by exact Hk.
        rewrite (filter_cons_True _ x []) by exact Hk. rewrite Hnil. reflexivity.
      * rewrite (filter_cons_False _ x (y :: l)) by exact Hk.
        rewrite (filter_cons_False _ x []) by exact Hk. rewrite app_nil_r. reflexivity.
    + destruct (insert_desc v key x l) as [l''|] eqn:E'; try discriminate.
      intros [= <-]. rewrite !filter_cons, (IH l'' (descending_tail _ _ D) eq_refl).
      destruct (decide (key y = k)); reflexivity.
Qed.

Lemma sort_into_stable (k : sort_key) acc l r :
  descending key acc -> sort_into v key acc l = Ok r ->
  filter (fun a => key a = k) r
    = (filter (fun a => key a = k) acc ++ filter (fun a => key a = k) l)%list.
Proof.
  revert acc. induction l as [|x l IH]; intros acc D; simpl.
  - intros [= <-]. rewrite app_nil_r. reflexivity.
  - destruct (insert_desc v key x acc) as [acc'|] eqn:E; try discriminate.
    intros H. rewrite (IH acc' (insert_desc_descending v key _ _ _ D E) H).
    rewrite (insert_desc_stable k _ _ _ D E), <- app_assoc. f_equal.
    rewrite !filter_cons. destruct (decide (key x = k)); reflexivity.
Qed.

(** [sorted] is stable: the elements with one and the same key come out
    in the order they went in. *)
Lemma sorted_reverse_stable (k : sort_key) l r :
  sorted_reverse v key l = Ok r ->
  filter (fun a => key a = k) r = filter (fun a => key a = k) l.
Proof. intros H. apply (sort_into_stable k [] l r I H). Qed.

End OrderFacts.

Import Blocks.

Section OrderOfTheLists.

Context (v : version)
        (parse_file : string -> result (list (string * Entry)))
        (write_stream : string -> Entry -> string)
        (inherited : string -> option template).

Local Abbreviation add_publications := (add_publications v parse_file write_stream inherited).
Local Abbreviation item_res := (item_res v write_stream inherited).
Local Abbreviation loop := (loop v write_stream inherited).
Local Abbreviation make_entry_res := (make_entry_res v write_stream).

(** X6.  What the loop puts into the tuple of a record: its key, the HTML
    of its formatted text, its BibTeX text, and the sort key made of the
    year -- [None] exactly when the record has no year field, the integer
    the field reads as otherwise -- and of the journal, the empty string
    when the record has none. *)
Theorem tuple_of_a_record k e f t :
  make_entry_res k e f = Ok t ->
  res_key t = k /\
  MyStyle.render_text f = Ok (res_text t) /\
  res_bibtex t = write_stream k e /\
  (itemgetter_last t).2 = default "" (fields e !! "journal") /\
  ((itemgetter_last t).1 = None <-> fields e !! "year" = None) /\
  (forall y, (itemgetter_last t).1 = Some y <->
             exists s, fields e !! "year" = Some s /\ parse_int v s = Some y).
Proof.
  unfold Plugin.make_entry_res, Plugin.year_of, int.
  destruct (fields e !! "year") as [s|] eqn:Hy; [destruct (parse_int v s) as [y|] eqn:Hs|];
    simpl; try discriminate;
    (destruct (MyStyle.render_text f) as [text|]; simpl; [|discriminate]);
    intros [= <-]; simpl; repeat split; try congruence; try discriminate.
  - intros [= <-]. eauto.
  - intros [s' [[= <-] H]]. congruence.
  - intros [s' [H _]]. discriminate.
Qed.

Lemma make_entry_res_sort_key k e f t :
  make_entry_res k e f = Ok t -> sort_key_of v e = Ok (itemgetter_last t).
Proof.
  unfold Plugin.make_entry_res, sort_key_of.
  destruct (year_of v e); simpl; [|discriminate].
  destruct (MyStyle.render_text f); simpl; [|discriminate].
  intros [= <-]. reflexivity.
Qed.

Lemma classify_get_bucket name e r b :
  name = "publications" \/ name = "reports" \/ name = "unpublished" ->
  get_bucket name (classify e r b)
    = (get_bucket name b
       ++ (if String.eqb (category_bucket (type e)) name then [r] else []))%list.
Proof.
  unfold get_bucket, classify, category_bucket.
  intros [-> | [-> | ->]];
    destruct (String.eqb (type e) "article"); try destruct (String.eqb (type e) "unpublished");
    simpl; rewrite ?app_nil_r; reflexivity.
Qed.

(** The local lists grow in file order. *)
Lemma loop_in_order name all items : forall b b',
  name = "publications" \/ name = "reports" \/ name = "unpublished" ->
  NoDup (map fst all) -> (forall item, item ∈ items -> item ∈ all) ->
  loop all b items = Ok b' ->
  exists ts,
    get_bucket name b' = (get_bucket name b ++ ts)%list /\
    Forall2 (fun item t => res_key t = item.1 /\ sort_key_of v item.2 = Ok (itemgetter_last t))
      (List.filter (fun item => String.eqb (category_bucket (type item.2)) name) items) ts.
Proof.
  induction items as [|[k e] items IH]; intros b b' Hn ND Hsub; simpl.
  - intros [= <-]. exists []. rewrite app_nil_r. split; [reflexivity | constructor].
  - unfold Plugin.loop_body.
    destruct (item_res all (k, e)) as [er|] eqn:E; simpl; [|discriminate].
    intros H.
    destruct (IH _ _ Hn ND (fun i Hi => Hsub i (proj2 (elem_of_cons _ _ _) (or_intror Hi))) H)
      as [ts [Hts HF]].
    assert ((k, e) ∈ all) as Hin by (apply Hsub, elem_of_cons; auto).
    destruct (item_res_spec v write_stream inherited all k e er ND Hin E)
      as [He [Hk [f [_ Hf]]]].
    rewrite classify_get_bucket in Hts by exact Hn. rewrite He in Hts.
    destruct (String.eqb (category_bucket (type e)) name).
    + exists (er.2 :: ts). split; [rewrite Hts, <- app_assoc; reflexivity|].
      constructor; [|exact HF]. split; [exact Hk|].
      eapply make_entry_res_sort_key; eauto.
    + exists ts. split; [rewrite Hts, app_nil_r; reflexivity | exact HF].
Qed.

Lemma filter_in_order (k : sort_key) (items : list (string * Entry)) ts :
  Forall2 (fun item t => res_key t = item.1 /\ sort_key_of v item.2 = Ok (itemgetter_last t))
    items ts ->
  map res_key (filter (fun t => itemgetter_last t = k) ts)
    = map fst (List.filter (fun item => match sort_key_of v item.2 with
                                        | Ok k' => bool_decide (k' = k)
                                        | Raise _ => false
                                        end) items).
Proof.
  induction 1 as [|item t items ts [Hk Hs] _ IH]; [reflexivity|].
  simpl. rewrite filter_cons, Hs.
  destruct (decide (itemgetter_last t = k)) as [Hd | Hd].
  - rewrite bool_decide_true by exact Hd. simpl. rewrite IH, Hk. reflexivity.
  - rewrite bool_decide_false by exact Hd. exact IH.
Qed.

Lemma filter_filter_andb {T} (p q : T -> bool) l :
  List.filter q (List.filter p l) = List.filter (fun x => p x && q x) l.
Proof.
  induction l as [|x l IH]; [reflexivity|]. simpl.
  destruct (p x); simpl; [destruct (q x)|]; rewrite IH; reflexivity.
Qed.

Lemma returned_bucket g refs_file entries name l :
  settings g !! "PUBLICATIONS_SRC" = Some refs_file ->
  parse_file refs_file = Ok entries ->
  raised (add_publications g) = None ->
  name = "publications" \/ name = "reports" \/ name = "unpublished" ->
  final_context (add_publications g) !! name = Some (Bucket l) ->
  exists b,
    loop entries {| publications := []; reports := []; unpublished := [] |} entries = Ok b /\
    sorted_reverse v itemgetter_last (get_bucket name b) = Ok l.
Proof.
  intros Hs Hp Hret Hn.
  destruct (add_publications_returned v parse_file write_stream inherited
              g refs_file entries Hs Hp Hret)
    as [b [p [r [u [Hloop [Ep [Er [Eu ->]]]]]]]].
  simpl. destruct (three_keys (context g) p r u) as [K1 [K2 K3]]. simpl in *.
  intros Hl. exists b. split; [exact Hloop|].
  destruct Hn as [-> | [-> | ->]]; unfold get_bucket; simpl; congruence.
Qed.

(** X7.  Each stored list is in descending order throughout, not only
    between neighbours: a tuple is [>=] every tuple behind it.  So a record
    never stands behind one with a smaller year, and the records without a
    year stand behind all the dated ones. *)
Theorem lists_sorted_throughout g refs_file entries name l i j x y :
  settings g !! "PUBLICATIONS_SRC" = Some refs_file ->
  parse_file refs_file = Ok entries ->
  raised (add_publications g) = None ->
  name = "publications" \/ name = "reports" \/ name = "unpublished" ->
  final_context (add_publications g) !! name = Some (Bucket l) ->
  l !! i = Some x -> l !! j = Some y -> i < j ->
  key_ge (itemgetter_last x) (itemgetter_last y) /\
  (forall a b, (itemgetter_last x).1 = Some a -> (itemgetter_last y).1 = Some b ->
               (b <= a)%Z) /\
  ((itemgetter_last x).1 = None -> (itemgetter_last y).1 = None).
Proof.
  intros Hs Hp Hret Hn Hl Hi Hj Hij.
  destruct (returned_bucket g refs_file entries name l Hs Hp Hret Hn Hl) as [b [_ Hsort]].
  apply sorted_reverse_descending in Hsort.
  pose proof (descending_lookup _ l Hsort i j x y Hi Hj Hij) as Hge.
  split; [exact Hge|]. unfold key_ge, key_cmp in Hge.
  destruct (itemgetter_last x).1 as [a|], (itemgetter_last y).1 as [b'|];
    simpl in Hge; split; try congruence; try discriminate;
    try (intros a' b'' [= <-] [= <-]; destruct (Z.compare_spec a b'); try congruence; lia).
Qed.

(** X8.  Ties keep the order of the file: in each stored list, the tuples
    that share a sort key are those of the records of the file that go to
    this list with this key, in the order of the file. *)
Theorem ties_keep_file_order g refs_file entries name l k :
  settings g !! "PUBLICATIONS_SRC" = Some refs_file ->
  parse_file refs_file = Ok entries ->
  NoDup (map fst entries) ->
  raised (add_publications g) = None ->
  name = "publications" \/ name = "reports" \/ name = "unpublished" ->
  final_context (add_publications g) !! name = Some (Bucket l) ->
  map res_key (filter (fun t => itemgetter_last t = k) l)
    = map fst (List.filter (goes_to v name k) entries).
Proof.
  intros Hs Hp ND Hret Hn Hl.
  destruct (returned_bucket g refs_file entries name l Hs Hp Hret Hn Hl) as [b [Hloop Hsort]].
  rewrite (sorted_reverse_stable v itemgetter_last k _ _ Hsort).
  destruct (loop_in_order name entries entries _ _ Hn ND (fun _ H => H) Hloop)
    as [ts [Hts HF]].
  assert (get_bucket name {| publications := []; reports := []; unpublished := [] |} = [])
    as Hnil by (unfold get_bucket; destruct (String.eqb name "publications"),
                  (String.eqb name "unpublished"); reflexivity).
  rewrite Hts, Hnil. simpl. rewrite (filter_in_order k _ _ HF), filter_filter_andb.
  reflexivity.
Qed.

End OrderOfTheLists.

Section SortedRaises.
Context {A : Type} (key : A -> sort_key).

Lemma key_lt_raises v a b ex : key_lt v a b = Raise ex -> ex = TypeError /\ v = Py3.
Proof.
  unfold key_lt. destruct (year_eqb a.1 b.1); [discriminate|].
  destruct a.1, b.1, v; simpl; try discriminate; intros [= <-]; auto.
Qed.

Lemma insert_desc_raises v x l ex :
  insert_desc v key x l = Raise ex -> ex = TypeError /\ v = Py3.
Proof.
  induction l as [|y l IH]; simpl; [discriminate|].
  destruct (key_lt v (key y) (key x)) as [[|]|ex'] eqn:E; [discriminate| |].
  - destruct (insert_desc v key x l); [discriminate|]. intros [= <-]. auto.
  - intros [= <-]. eapply key_lt_raises; eauto.
Qed.

Lemma sort_into_raises v acc l ex :
  sort_into v key acc l = Raise ex -> ex = TypeError /\ v = Py3.
Proof.
  revert acc. induction l as [|x l IH]; intros acc; simpl; [discriminate|].
  destruct (insert_desc v key x acc) as [acc'|ex'] eqn:E; [apply IH|].
  intros [= <-]. eapply insert_desc_raises; eauto.
Qed.

(** Under Python 3 an element cannot be inserted among elements of the
    other kind. *)
Lemma insert_desc_mixed x y l :
  dated key y <> dated key x -> insert_desc Py3 key x (y :: l) = Raise TypeError.
Proof.
  unfold dated. simpl. unfold key_lt.
  destruct (key y).1, (key x).1; simpl; congruence.
Qed.

Lemma sort_into_same_kind d acc l r :
  acc <> [] -> Forall (fun a => dated key a = d) acc ->
  sort_into Py3 key acc l = Ok r -> Forall (fun a => dated key a = d) l.
Proof.
  revert acc. induction l as [|x l IH]; intros acc Hne Hacc; simpl; [constructor|].
  destruct (insert_desc Py3 key x acc) as [acc'|] eqn:E; [|discriminate].
  intros H. destruct acc as [|y acc]; [congruence|].
  assert (dated key x = d) as Hx.
  { destruct (bool_decide (dated key y = dated key x)) eqn:B.
    - apply bool_decide_eq_true in B. apply Forall_inv in Hacc. congruence.
    - apply bool_decide_eq_false in B. rewrite (insert_desc_mixed x y acc B) in E.
      discriminate. }
  constructor; [exact Hx|]. apply (IH acc'); [| |exact H].
  - intros ->. apply insert_desc_perm, Permutation_nil_cons in E. exact E.
  - rewrite (insert_desc_perm _ _ _ _ _ E). constructor; assumption.
Qed.

Lemma key_lt_same_kind v a b :
  match a.1, b.1 with Some _, Some _ | None, None => True | _, _ => False end ->
  exists t, key_lt v a b = Ok t.
Proof.
  unfold key_lt. destruct a.1, b.1; simpl; try tauto; intros _.
  - destruct (Z.eqb z z0); simpl; eauto.
  - eauto.
Qed.

(** X9.  When [sorted] fails on a list of the plugin: never under
    Python 2; under Python 3 exactly when the list holds both a key with a
    year and a key without, and then with [TypeError]. *)
Theorem sorted_fails_on_mixed_years_only l :
  (forall v ex, sorted_reverse v key l = Raise ex -> v = Py3 /\ ex = TypeError) /\
  ((exists d, Forall (fun a => dated key a = d) l) ->
   exists r, sorted_reverse Py3 key l = Ok r) /\
  (~ (exists d, Forall (fun a => dated key a = d) l) ->
   sorted_reverse Py3 key l = Raise TypeError).
Proof.
  split; [|split].
  - intros v ex H. apply sort_into_raises in H. tauto.
  - intros [d Hd].
    apply (sort_into_total Py3 key (fun a => dated key a = d)); [|constructor|exact Hd].
    intros a b Ha Hb. apply key_lt_same_kind. unfold dated in Ha, Hb.
    destruct (key a).1, (key b).1; simpl; first [exact I | congruence].
  - intros Hmixed. destruct (sorted_reverse Py3 key l) as [r|ex] eqn:E.
    + exfalso. apply Hmixed. destruct l as [|x l]; [exists true; constructor|].
      exists (dated key x). constructor; [reflexivity|].
      unfold sorted_reverse in E. simpl in E.
      apply (sort_into_same_kind (dated key x) [x] l r); [discriminate | | exact E].
      constructor; [reflexivity | constructor].
    + apply sort_into_raises in E as [-> _]. reflexivity.
Qed.

End SortedRaises.

(* ===================================================================== *)
(** ** The other blocks of an entry                                       *)
(* ===================================================================== *)

Lemma join_nonempty_single sep x : join_nonempty sep [x] = x.
Proof.
  unfold join_nonempty. simpl. destruct (nonempty x) eqn:E; [reflexivity|].
  apply nonempty_false in E. subst. reflexivity.
Qed.

Lemma render_sentence_single x :
  render (add_period (join_parts (Str ", ") (Str ", ") (Str ", ") [x]))
    = render x ++ period_for (plaintext x).
Proof.
  rewrite render_add_period, render_join_parts, truthy_plaintext, plaintext_join_parts.
  simpl List.map. rewrite !join_nonempty_single. reflexivity.
Qed.









Lemma add_period_terminated t :
  truthy (add_period t) = true -> is_terminated (plaintext (add_period t)) = true.
Proof.
  unfold add_period. destruct (truthy t) eqn:Ht; simpl.
  - destruct (is_terminated (plaintext t)) eqn:E; simpl; [intros _; exact E|].
    intros _. rewrite ?append_nil_r. unfold is_terminated.
    rewrite last_char_append by discriminate. reflexivity.
  - congruence.
Qed.

(** A sentence of a sentence gets no second period. *)
Lemma render_sentence_of_sentence t :
  render (add_period (join_parts (Str ", ") (Str ", ") (Str ", ") [add_period t]))
    = render (add_period t).
Proof.
  rewrite render_sentence_single. unfold period_for.
  rewrite <- truthy_plaintext.
  destruct (truthy (add_period t)) eqn:E; simpl; [|apply append_nil_r].
  rewrite (add_period_terminated t E). apply append_nil_r.
Qed.

(** The author block is the same for the three entry types. *)
Lemma names_sentence_twice e role :
  rendered (sentence [MyStyle.format_names role]) e
    = rendered (MyStyle.format_names role) e.
Proof.
  unfold rendered, MyStyle.format_names, Unsrt.format_names. cbn [format_data format_all].
  destruct (persons e !! role) as [ps|]; [|reflexivity].
  f_equal. apply render_sentence_of_sentence.
Qed.

(** X13.  A sentence wrapped in a second [sentence], as the unpublished
    and technical-report templates do with the authors, renders as the
    sentence alone: no second period is added, and it raises what the
    sentence raises. *)
Theorem sentence_of_sentence_has_one_period cs e :
  rendered (sentence [sentence cs]) e = rendered (sentence cs) e.
Proof.
  unfold rendered. cbn [format_data format_all].
  destruct (format_all (fun c => format_data c e) cs) as [parts|]; [|reflexivity].
  f_equal. apply render_sentence_of_sentence.
Qed.




Lemma format_all_five {T} (f : T -> result rtext) a b c d g xs :
  format_all f [a; b; c; d; g] = Ok xs ->
  exists xa xb xc xd xg,
    f a = Ok xa /\ f b = Ok xb /\ f c = Ok xc /\ f d = Ok xd /\ f g = Ok xg /\
    xs = [xa; xb; xc; xd; xg].
Proof.
  simpl. destruct (f a) as [xa|]; [|discriminate]. destruct (f b) as [xb|]; [|discriminate].
  destruct (f c) as [xc|]; [|discriminate]. destruct (f d) as [xd|]; [|discriminate].
  destruct (f g) as [xg|]; [|discriminate]. intros [= <-]. eauto 12.
Qed.

Lemma format_all_five_ok {T} (f : T -> result rtext) a b c d g xa xb xc xd xg :
  f a = Ok xa -> f b = Ok xb -> f c = Ok xc -> f d = Ok xd -> f g = Ok xg ->
  format_all f [a; b; c; d; g] = Ok [xa; xb; xc; xd; xg].
Proof. intros Ha Hb Hc Hd Hg. simpl. rewrite Ha, Hb, Hc, Hd, Hg. reflexivity. Qed.

Lemma format_data_toplevel cs e :
  format_data (toplevel cs) e
    = match format_all (fun c => format_data c e) cs with
      | Ok parts => Ok (join_parts (Symbol newblock) (Symbol newblock) (Symbol newblock) parts)
      | Raise ex => Raise ex
      end.
Proof. reflexivity. Qed.

Lemma rendered_ok t e b :
  rendered t e = Ok b -> exists x, format_data t e = Ok x /\ render x = b.
Proof. unfold rendered. destruct (format_data t e); [intros [= <-]; eauto | discriminate]. Qed.

Lemma own_template_blocks ty :
  ty = "article" \/ ty = "unpublished" \/ ty = "techreport" ->
  exists authors,
    (forall e, rendered authors e = rendered (MyStyle.format_names "author") e) /\
    (if String.eqb ty "article" then MyStyle.format_article
     else if String.eqb ty "unpublished" then MyStyle.format_unpublished
     else MyStyle.format_techreport)
    = toplevel [MyStyle.format_title "title"; authors; venue_sentence ty;
                sentence [optional_field "note"]; MyStyle.format_web_refs].
Proof.
  intros [-> | [-> | ->]].
  - exists (MyStyle.format_names "author"). split; reflexivity.
  - exists (sentence [MyStyle.format_names "author"]).
    split; [intros e; apply names_sentence_twice | reflexivity].
  - exists (sentence [MyStyle.format_names "author"]).
    split; [intros e; apply names_sentence_twice | reflexivity].
Qed.

(** X15.  The layout of an article, unpublished or technical-report entry:
    the entry is formatted exactly when its five blocks are -- title,
    authors, the sentence of its type, note, web references -- and its HTML
    is the blocks that are not empty, in this order, one per line. *)
Theorem entry_layout (inherited : string -> option template) e :
  type e = "article" \/ type e = "unpublished" \/ type e = "techreport" ->
  forall html,
    (f ← MyStyle.format_entry inherited e; MyStyle.render_text f) = Ok html <->
    exists b1 b2 b3 b4 b5,
      rendered (MyStyle.format_title "title") e = Ok b1 /\
      rendered (MyStyle.format_names "author") e = Ok b2 /\
      rendered (venue_sentence (type e)) e = Ok b3 /\
      rendered (sentence [optional_field "note"]) e = Ok b4 /\
      rendered MyStyle.format_web_refs e = Ok b5 /\
      html = join_nonempty (html_symbol newblock) [b1; b2; b3; b4; b5].
Proof.
  intros Hty html.
  destruct (own_template_blocks (type e) Hty) as [authors [Hauthors Htpl]].
  assert (MyStyle.format_entry inherited e
          = MyStyle.as_text (format_data
              (toplevel [MyStyle.format_title "title"; authors; venue_sentence (type e);
                         sentence [optional_field "note"]; MyStyle.format_web_refs]) e))
    as ->.
  { rewrite <- Htpl. unfold MyStyle.format_entry.
    destruct Hty as [H | [H | H]]; rewrite H; reflexivity. }
  rewrite <- (Hauthors e). rewrite format_data_toplevel. split.
  - destruct (format_all (fun c => format_data c e) _) as [xs|ex] eqn:E; [|discriminate].
    apply format_all_five in E as [x1 [x2 [x3 [x4 [x5 [H1 [H2 [H3 [H4 [H5 ->]]]]]]]]]].
    simpl. intros [= <-]. rewrite render_join_parts. unfold rendered.
    rewrite H1, H2, H3, H4, H5. exists (render x1), (render x2), (render x3), (render x4),
      (render x5). repeat split; reflexivity.
  - intros [b1 [b2 [b3 [b4 [b5 [B1 [B2 [B3 [B4 [B5 ->]]]]]]]]]].
    apply rendered_ok in B1 as [x1 [H1 <-]]. apply rendered_ok in B2 as [x2 [H2 <-]].
    apply rendered_ok in B3 as [x3 [H3 <-]]. apply rendered_ok in B4 as [x4 [H4 <-]].
    apply rendered_ok in B5 as [x5 [H5 <-]].
    rewrite (format_all_five_ok (fun c => format_data c e) _ _ _ _ _ _ _ _ _ _
               H1 H2 H3 H4 H5).
    simpl. rewrite render_join_parts. reflexivity.
Qed.

(* ===================================================================== *)
(** ** The further properties on the samples                              *)
(* ===================================================================== *)

Lemma other_context_keys_untouched_witness :
  final_context (Samples.run Py3 (Samples.site "refs.bib")) !! "SITENAME"
    = context (Samples.site "refs.bib") !! "SITENAME".
Proof.
  apply (other_context_keys_untouched Py3 (Samples.parser Samples.files) Samples.writer
           Samples.misc_only (Samples.site "refs.bib") "SITENAME"); discriminate.
Defined.


Lemma nothing_logged_after_a_successful_parse_witness :
  events (Blocks.run Py3 (Samples.site "bad.bib")) = [ParseFile "bad.bib"].
Proof.
  apply (nothing_logged_after_a_successful_parse Py3 (Samples.parser Blocks.files)
           Samples.writer Samples.misc_only (Samples.site "bad.bib") "bad.bib"
           [("s", Samples.survey); ("r", Samples.report_no_institution)]).
  - vm_compute. reflexivity.
  - vm_compute. reflexivity.
Defined.

Lemma one_bad_record_aborts_the_run_witness :
  (exists ex, raised (Blocks.run Py3 (Samples.site "bad.bib")) = Some ex) /\
  final_context (Blocks.run Py3 (Samples.site "bad.bib")) = context (Samples.site "bad.bib").
Proof.
  apply (one_bad_record_aborts_the_run Py3 (Samples.parser Blocks.files) Samples.writer
           Samples.misc_only (Samples.site "bad.bib") "bad.bib"
           [("s", Samples.survey); ("r", Samples.report_no_institution)]
           "r" Samples.report_no_institution (FieldIsMissing "institution")).
  - vm_compute. reflexivity.
  - vm_compute. reflexivity.
  - apply elem_of_cons. right. apply elem_of_cons. left. reflexivity.
  - vm_compute. reflexivity.
Defined.

Lemma tuple_of_a_record_witness :
  exists t,
    make_entry_res Py3 Samples.writer "u" Samples.talk_undated
      (MyStyle.Rich (Text [Str "Alan Turing."])) = Ok t /\
    res_key t = "u" /\
    res_bibtex t = "@misc{u}" /\
    itemgetter_last t = (None, "").
Proof.
  eexists. split; [vm_compute; reflexivity|].
  destruct (tuple_of_a_record Py3 Samples.writer "u" Samples.talk_undated
              (MyStyle.Rich (Text [Str "Alan Turing."]))
              ("u", "Alan Turing.", "@misc{u}", (None, "")))
    as [H1 [_ [H3 _]]]; [vm_compute; reflexivity|].
  split; [exact H1|]. split; [exact H3 | reflexivity].
Defined.

Lemma lists_sorted_throughout_witness :
  exists l x y,
    final_context (Blocks.run Py3 (Samples.site "ties.bib")) !! "reports" = Some (Bucket l) /\
    l !! 0 = Some x /\ l !! 1 = Some y /\
    res_key x = "t" /\ res_key y = "r" /\
    key_ge (itemgetter_last x) (itemgetter_last y).
Proof.
  exists [("t", "Alan Turing." ++ html_symbol newblock ++ "<b>A talk</b>."
               ++ html_symbol newblock ++ "2020.", "@misc{t}", (Some 2020%Z, ""));
          ("r", "<b>A report</b>." ++ html_symbol newblock ++ "Alan Turing."
               ++ html_symbol newblock ++ "Technical Report, MIT, 2018.",
           "@techreport{r}", (Some 2018%Z, ""))].
  eexists _, _. split; [vm_compute; reflexivity|].
  split; [reflexivity|]. split; [reflexivity|]. split; [reflexivity|].
  split; [reflexivity|].
  eapply (lists_sorted_throughout Py3 (Samples.parser Blocks.files) Samples.writer
            Samples.misc_only (Samples.site "ties.bib") "ties.bib" _ "reports" _ 0 1).
  - vm_compute. reflexivity.
  - vm_compute. reflexivity.
  - vm_compute. reflexivity.
  - right. left. reflexivity.
  - vm_compute. reflexivity.
  - reflexivity.
  - reflexivity.
  - lia.
Defined.

Lemma ties_keep_file_order_witness :
  exists l,
    final_context (Blocks.run Py3 (Samples.site "ties.bib")) !! "unpublished"
      = Some (Bucket l) /\
    map res_key (filter (fun t => itemgetter_last t = (Some 2021%Z, "")) l) = ["d1"; "d2"].
Proof.
  eexists. split; [vm_compute; reflexivity|].
  rewrite (ties_keep_file_order Py3 (Samples.parser Blocks.files) Samples.writer
             Samples.misc_only (Samples.site "ties.bib") "ties.bib"
             [("d1", Samples.draft); ("r", Samples.report); ("d2", Samples.draft_typed);
              ("t", Samples.talk)] "unpublished" _ (Some 2021%Z, "")).
  - vm_compute. reflexivity.
  - vm_compute. reflexivity.
  - vm_compute. reflexivity.
  - apply (bool_decide_unpack _). vm_compute. exact I.
  - vm_compute. reflexivity.
  - right. right. reflexivity.
  - vm_compute. reflexivity.
Defined.

Lemma sorted_fails_on_mixed_years_only_witness :
  (exists r, sorted_reverse Py3 (fun k : sort_key => k)
               [(Some 2019%Z, "b"); (Some 2020%Z, "a"); (Some 2019%Z, "c")] = Ok r) /\
  sorted_reverse Py3 (fun k : sort_key => k) [(Some 2019%Z, "b"); (None, "a")]
    = Raise TypeError.
Proof.
  split.
  - apply (sorted_fails_on_mixed_years_only (fun k : sort_key => k)).
    exists true. repeat constructor.
  - apply (sorted_fails_on_mixed_years_only (fun k : sort_key => k)).
    intros [d Hd]. apply Forall_cons in Hd as [H1 Hd]. apply Forall_cons in Hd as [H2 _].
    vm_compute in H1, H2. congruence.
Defined.




Lemma entry_layout_witness :
  (f ← MyStyle.format_entry Samples.misc_only Blocks.linked; MyStyle.render_text f)
    = Ok (join_nonempty (html_symbol newblock)
            ["<b>What is a report?</b>";
             "Alan Turing and Ada Lovelace.";
             "Technical Report 7, MIT, Cambridge, 2018.";
             "To appear.";
             url_html "http://example.org/r.pdf" ++ "."]).
Proof.
  apply (entry_layout Samples.misc_only Blocks.linked).
  - right. right. reflexivity.
  - eexists _, _, _, _, _. repeat split; vm_compute; reflexivity.
Defined.
